(** * openapi-to-mcp: schema conversion and operation mapping

    A shallow embedding of the conversion core of the repository:

    - [mapping/utils.py]            : [generate_tool_name]
    - [schema/handlers/*.py]        : the seven schema handlers
    - [schema/converter.py]         : [SchemaConverter.convert]
    - [mapping/mapper.py]           : [Mapper]

    Modelling conventions.

    - A parsed document is a tree of JSON-compatible values ([json]); a Python
      [dict] is an association list in insertion order, keyed by strings.  A
      key is read by its first entry, and [ditems] lists each key once, so
      every association list stands for one dictionary.
    - A Python [str] is a [string] of 8-bit characters (the UTF-8 encoding);
      [str.lower] and [str.upper] act on the ASCII letters.
    - Values are immutable: an in-place update of a dictionary or list is a
      function returning the updated value.  This by-value reading is exact
      for the objects the code builds itself, and for the document as long
      as no conversion changes one of its lists.  One update does reach the
      document: the [append] of [_handle_nullable] on a type list that the
      output took over from the input schema.  Module [Shared] models the
      document as the one object all conversions read and write, with that
      update made in place.
    - An exception is an explicit outcome; the visited-reference set of a
      [ReferenceHandler] is threaded through the calls that share it.
    - [SchemaConverter.convert] recurses through references, so it is defined
      with a recursion budget; [convert_total] shows the budget
      [fuel_bound] is always enough. *)

From Stdlib Require Import ZArith List String Ascii Bool Lia DecimalString.
From stdpp Require Import base gmap sets strings.
Import ListNotations.

Set Warnings "-register-all,-clear-no-such-hyp".
Local Open Scope string_scope.
Local Open Scope list_scope.

(** ** Python string helpers *)

Module PyStr.

Definition is_upper (c : ascii) : bool :=
  let n := nat_of_ascii c in Nat.leb 65 n && Nat.leb n 90.

Definition is_lower (c : ascii) : bool :=
  let n := nat_of_ascii c in Nat.leb 97 n && Nat.leb n 122.

Definition is_digit (c : ascii) : bool :=
  let n := nat_of_ascii c in Nat.leb 48 n && Nat.leb n 57.

Definition lower_char (c : ascii) : ascii :=
  if is_upper c then ascii_of_nat (nat_of_ascii c + 32) else c.

Definition upper_char (c : ascii) : ascii :=
  if is_lower c then ascii_of_nat (nat_of_ascii c - 32) else c.

Fixpoint map_chars (f : ascii -> ascii) (s : string) : string :=
  match s with
  | EmptyString => EmptyString
  | String c r => String (f c) (map_chars f r)
  end.

(** [s.lower()] and [s.upper()] *)
Definition lower (s : string) : string := map_chars lower_char s.
Definition upper (s : string) : string := map_chars upper_char s.

(** [c in s] for a one-character [c] *)
Fixpoint contains (c : ascii) (s : string) : bool :=
  match s with
  | EmptyString => false
  | String a r => Ascii.eqb a c || contains c r
  end.

(** [s.split(sep)] for a one-character separator: the first piece and the
    remaining pieces (the result of [split] is never empty). *)
Fixpoint split_on (sep : ascii) (s : string) : string * list string :=
  match s with
  | EmptyString => (EmptyString, [])
  | String c r =>
      let '(hd, tl) := split_on sep r in
      if Ascii.eqb c sep then (EmptyString, hd :: tl) else (String c hd, tl)
  end.

Definition split (sep : ascii) (s : string) : list string :=
  let '(hd, tl) := split_on sep s in hd :: tl.

(** [s.lstrip(c)], [s.rstrip(c)], [s.strip(c)] for a one-character set *)
Fixpoint lstrip (c : ascii) (s : string) : string :=
  match s with
  | EmptyString => EmptyString
  | String a r => if Ascii.eqb a c then lstrip c r else s
  end.

Fixpoint rstrip (c : ascii) (s : string) : string :=
  match s with
  | EmptyString => EmptyString
  | String a r =>
      match rstrip c r with
      | EmptyString => if Ascii.eqb a c then EmptyString else String a EmptyString
      | r' => String a r'
      end
  end.

Definition strip (c : ascii) (s : string) : string := rstrip c (lstrip c s).

(** [s.startswith(p)] *)
Definition startswith (p s : string) : bool := String.prefix p s.

(** [s[n:]] *)
Fixpoint drop (n : nat) (s : string) : string :=
  match n, s with
  | O, _ => s
  | S n', String _ r => drop n' r
  | S _, EmptyString => EmptyString
  end.

(** [str(z)] for an [int] *)
Definition of_Z (z : Z) : string := NilZero.string_of_int (Z.to_int z).

End PyStr.

(** ** Tool naming ([mapping/utils.py]) *)

Module Naming.
Import PyStr.

(** [re.sub(r"[.-]", "_", param_name)] *)
Definition clean_param (p : string) : string :=
  map_chars (fun c => if Ascii.eqb c "." || Ascii.eqb c "-" then "_"%char else c) p.

(** [re.sub(r"\{([^}]+)\}", param_replacer, path_part)], as one left-to-right
    scan.  [open] holds the characters read since an unmatched opening brace.
    A brace group needs at least one character other than the closing brace
    and a closing brace after it; an opening brace with no closing brace
    after it starts no match, and neither does any later one. *)
Fixpoint sub_params (s : string) (open : option string) : string :=
  match s, open with
  | EmptyString, None => EmptyString
  | EmptyString, Some buf => String "{" buf
  | String c r, None =>
      if Ascii.eqb c "{" then sub_params r (Some EmptyString)
      else String c (sub_params r None)
  | String c r, Some buf =>
      if Ascii.eqb c "}" then
        match buf with
        | EmptyString => String "{" (String "}" (sub_params r None))
        | _ => "_by_" +:+ clean_param buf +:+ sub_params r None
        end
      else sub_params r (Some (buf +:+ String c EmptyString))
  end.

Definition is_word_char (c : ascii) : bool :=
  is_lower c || is_upper c || is_digit c || Ascii.eqb c "_".

(** [re.sub(r"[^a-zA-Z0-9_]", "_", path_part)] *)
Definition sub_invalid (s : string) : string :=
  map_chars (fun c => if is_word_char c then c else "_"%char) s.

(** [re.sub(r"_+", "_", path_part)] *)
Fixpoint collapse_underscores (s : string) : string :=
  match s with
  | EmptyString => EmptyString
  | String c r =>
      if Ascii.eqb c "_" then
        match r with
        | String c' _ =>
            if Ascii.eqb c' "_" then collapse_underscores r
            else String c (collapse_underscores r)
        | EmptyString => String c EmptyString
        end
      else String c (collapse_underscores r)
  end.

(** The element at index 1 of a [split] result that is known to have one. *)
Definition second (l : list string) : string := nth 1 l EmptyString.

Definition generate_tool_name (method path : string) : string :=
  let method_part := lower method in
  let path_part :=
    if contains "?" path then
      let path_parts := split "?" path in
      let query_part := second path_parts in
      let head := strip "/" (hd EmptyString path_parts) in
      if contains "=" query_part then
        let query_parts := split "=" query_part in
        head +:+ "_query_" +:+ second query_parts
      else head +:+ "_query_" +:+ query_part
    else strip "/" path in
  match path_part with
  | EmptyString => method_part +:+ "_root"
  | _ =>
      let path_part := sub_params path_part None in
      let path_part := sub_invalid path_part in
      let path_part := collapse_underscores path_part in
      let path_part := lstrip "_" path_part in
      method_part +:+ "_" +:+ path_part
  end.

End Naming.

(** ** JSON-compatible values *)

(** A finite Python [float]: (-1)^[f_neg] * [f_mant] * 2^[f_exp]. *)
Record pyfloat := PyFloat { f_neg : bool; f_mant : N; f_exp : Z }.

Inductive json : Type :=
| JNull
| JBool (b : bool)
| JInt (z : Z)
| JFloat (f : pyfloat)
| JStr (s : string)
| JList (l : list json)
| JDict (d : list (string * json)).

(** A Python [dict] with string keys, in insertion order. *)
Abbreviation dict := (list (string * json)).

(** What the conversion core takes from the Python runtime and from the
    [requests] library: [requests.utils.unquote], [int(s)] on a string
    ([None] stands for [ValueError]) and [str(v)] of a value that is not
    itself a string, as used by f-strings. *)
Class PyRuntime := {
  unquote : string -> string;
  int_of_str : string -> option Z;
  py_str : json -> string
}.

Module Dict.

(** [d.get(k)] *)
Fixpoint dget (k : string) (d : dict) : option json :=
  match d with
  | [] => None
  | (k', v) :: r => if String.eqb k' k then Some v else dget k r
  end.

(** [k in d] *)
Definition dhas (k : string) (d : dict) : bool :=
  match dget k d with Some _ => true | None => false end.

(** [d[k] = v]: an existing key keeps its position, a new one goes last. *)
Fixpoint dset (k : string) (v : json) (d : dict) : dict :=
  match d with
  | [] => [(k, v)]
  | (k', v') :: r =>
      if String.eqb k' k then (k', v) :: r else (k', v') :: dset k v r
  end.

(** [d.pop(k, None)] *)
Definition dpop (k : string) (d : dict) : dict :=
  List.filter (fun kv => negb (String.eqb (fst kv) k)) d.

(** [d.items()]: each key once, in order, with the value [dget] reads *)
Fixpoint ditems (d : dict) : dict :=
  match d with
  | [] => []
  | (k, v) :: r => (k, v) :: dpop k (ditems r)
  end.

(** [d.update(d2)] *)
Definition dupdate (d d2 : dict) : dict :=
  fold_left (fun acc kv => dset (fst kv) (snd kv) acc) (ditems d2) d.

(** [d.get(k, default)] *)
Definition dget_default (k : string) (default : json) (d : dict) : json :=
  match dget k d with Some v => v | None => default end.

End Dict.
Export Dict.

Module Py.

(** [bool(v)] *)
Definition truthy (v : json) : bool :=
  match v with
  | JNull => false
  | JBool b => b
  | JInt z => negb (Z.eqb z 0)
  | JFloat f => negb (N.eqb (f_mant f) 0)
  | JStr s => negb (String.eqb s "")
  | JList l => match l with [] => false | _ => true end
  | JDict d => match d with [] => false | _ => true end
  end.

(** [v == s] for a string [s] *)
Definition eq_str (v : json) (s : string) : bool :=
  match v with JStr s' => String.eqb s' s | _ => false end.

(** [v in [s1, ..., sn]] for a list of strings *)
Definition in_strs (v : json) (l : list string) : bool :=
  existsb (eq_str v) l.

(** [s in l] for a string [s] and a list [l] of values *)
Definition str_in (s : string) (l : list json) : bool :=
  existsb (fun v => eq_str v s) l.

Definition is_dict (v : json) : bool :=
  match v with JDict _ => true | _ => false end.

(** [d.get(k)] with Python's [None] for a missing key *)
Definition get (k : string) (d : dict) : json := dget_default k JNull d.

(** [a or b] *)
Definition or_else (a b : json) : json := if truthy a then a else b.

(** [l[i]]: negative indices count from the end; [None] is [IndexError]. *)
Definition index (l : list json) (i : Z) : option json :=
  let len := Z.of_nat (length l) in
  if (0 <=? i)%Z && (i <? len)%Z then nth_error l (Z.to_nat i)
  else if (- len <=? i)%Z && (i <? 0)%Z then nth_error l (Z.to_nat (len + i))
  else None.

End Py.

(** ** Hashable values: members of a Python [set] *)

(** The value a hashable object is compared by: [None], a string, or a number
    m * 2^e with m odd (or 0 with e = 0), so that [True == 1 == 1.0]. *)
Inductive hkey : Type :=
| HNone
| HStr (s : string)
| HNum (m e : Z).

#[global] Instance hkey_eq_dec : EqDecision hkey.
Proof. solve_decision. Defined.

#[global] Instance hkey_countable : Countable hkey.
Proof.
  refine (inj_countable'
    (fun k => match k with
              | HNone => inl ()
              | HStr s => inr (inl s)
              | HNum m e => inr (inr (m, e))
              end)
    (fun x => match x with
              | inl _ => HNone
              | inr (inl s) => HStr s
              | inr (inr (m, e)) => HNum m e
              end) _).
  intros []; reflexivity.
Defined.

Module Hash.

Fixpoint strip_twos (p : positive) : positive * Z :=
  match p with
  | xO q => let '(m, k) := strip_twos q in (m, (k + 1)%Z)
  | _ => (p, 0%Z)
  end.

Definition num_key (m e : Z) : hkey :=
  match m with
  | Z0 => HNum 0 0
  | Zpos p => let '(q, k) := strip_twos p in HNum (Zpos q) (e + k)
  | Zneg p => let '(q, k) := strip_twos p in HNum (Zneg q) (e + k)
  end.

(** [hash(v)]: [None] stands for [TypeError: unhashable type]. *)
Definition hash_key (v : json) : option hkey :=
  match v with
  | JNull => Some HNone
  | JBool b => Some (num_key (if b then 1 else 0) 0)
  | JInt z => Some (num_key z 0)
  | JFloat f =>
      Some (num_key (if f_neg f then - Z.of_N (f_mant f) else Z.of_N (f_mant f))
                    (f_exp f))
  | JStr s => Some (HStr s)
  | JList _ | JDict _ => None
  end.

End Hash.

(** The visited-reference set of a [ReferenceHandler]. *)
Abbreviation visited := (gset hkey).

(** ** Computations on one converter instance *)

(** A call on a [SchemaConverter] reads and extends the visited set of its
    [ReferenceHandler]; [None] means the recursion budget ran out. *)
Definition M (A : Type) : Type := visited -> option (A * visited).

Definition ret {A} (a : A) : M A := fun V => Some (a, V).

Definition bind {A B} (m : M A) (f : A -> M B) : M B :=
  fun V => match m V with
           | Some (a, V') => f a V'
           | None => None
           end.

Notation "'let*' x ':=' m 'in' k" := (bind m (fun x => k))
  (at level 10, x pattern, m at level 100, k at level 200).

Fixpoint mapM {A B} (f : A -> M B) (l : list A) : M (list B) :=
  match l with
  | [] => ret []
  | x :: r => let* y := f x in let* ys := mapM f r in ret (y :: ys)
  end.

(** ** Schema handlers ([schema/handlers]) *)

(** How a call of [handle] ends: it returns, leaving the output fragment [j],
    or it raises (the reference handler is the only one that can, and it
    raises before it writes to the output fragment). *)
Inductive handled : Type :=
| Returned (j : dict)
| Raised.

(** [SchemaHandler]: [can_handle(schema)] and [handle(openapi_schema, json_schema)]. *)
Record SchemaHandler := {
  can_handle : dict -> bool;
  handle : dict -> dict -> M handled
}.

Definition pure_handler (can : dict -> bool) (h : dict -> dict -> dict) : SchemaHandler :=
  {| can_handle := can; handle := fun o j => ret (Returned (h o j)) |}.

Definition cyclic_flag : string := "_is_cyclic_reference".

(** [if k in o: j[k] = o[k]] *)
Definition copy_key (k : string) (o j : dict) : dict :=
  match dget k o with Some v => dset k v j | None => j end.

Definition copy_keys (ks : list string) (o j : dict) : dict :=
  fold_left (fun acc k => copy_key k o acc) ks j.

(** [if "type" not in j: j["type"] = t] *)
Definition default_type (t : json) (j : dict) : dict :=
  if dhas "type" j then j else dset "type" t j.

Section Handlers.
Context {RT : PyRuntime}.

(** [converter.full_spec] and [converter.convert] of the owning converter *)
Variable full_spec : json.
Variable conv : json -> M dict.

(** *** [reference.py] *)

(** [f"{v}"] *)
Definition format_value (v : json) : string :=
  match v with JStr s => s | _ => py_str v end.

Definition unresolved (ref : string) : dict :=
  [("description", JStr ("Unresolved reference: " +:+ ref))].

Definition not_an_object (ref : string) : dict :=
  [("description", JStr ("Resolved reference is not an object: " +:+ ref))].

(** The [for part_str in parts] loop of [resolve_ref]; [None] stands for the
    [KeyError], [IndexError] or [ValueError] the [try] block catches. *)
Fixpoint traverse (parts : list string) (current : json) : option json :=
  match parts with
  | [] => Some current
  | part_str :: rest =>
      let decoded_part := unquote part_str in
      match current with
      | JList l =>
          match int_of_str decoded_part with
          | Some i =>
              match Py.index l i with
              | Some v => traverse rest v
              | None => None
              end
          | None => None
          end
      | JDict d =>
          match dget decoded_part d with
          | Some v => traverse rest v
          | None => None
          end
      | _ => None
      end
  end.

(** [ReferenceHandler.resolve_ref] on a string *)
Definition resolve_ref (ref : string) : dict :=
  if negb (PyStr.startswith "#/" ref) then unresolved ref
  else
    match traverse (PyStr.split "/" (PyStr.drop 2 ref)) full_spec with
    | None => unresolved ref
    | Some (JDict d) => d
    | Some _ => not_an_object ref
    end.

(** [d.get("description", "")] as the receiver of [.startswith]: [None]
    stands for the [AttributeError] of a value that is not a string. *)
Definition get_description (d : dict) : option string :=
  match dget "description" d with
  | None => Some ""
  | Some (JStr s) => Some s
  | Some _ => None
  end.

Definition is_unresolved_desc (s : string) : bool :=
  PyStr.startswith "Unresolved reference:" s
  || PyStr.startswith "Resolved reference is not an object:" s.

Definition is_recursive_error_desc (s : string) : bool :=
  PyStr.startswith "Unresolved reference:" s
  || PyStr.startswith "Cyclic reference detected:" s
  || PyStr.startswith "Resolved reference is not an object:" s.

(** The placeholder written at the second encounter of a reference *)
Definition cyclic_placeholder (ref_path : json) (j : dict) : dict :=
  dset cyclic_flag (JBool true)
    (dupdate j [("description",
                 JStr ("Cyclic reference detected: " +:+ format_value ref_path))]).

(** The provenance note, written when the output has no description *)
Definition annotate (o : dict) (ref : string) (j : dict) : dict :=
  if dhas "description" j then j
  else
    let original_ref_desc := Py.get "description" o in
    if Py.truthy original_ref_desc then
      dset "description"
        (JStr (format_value original_ref_desc +:+ " (from ref: " +:+ ref +:+ ")")) j
    else dset "description" (JStr ("(from ref: " +:+ ref +:+ ")")) j.

(** [result.get("_is_cyclic_reference") is True] *)
Definition flag_is_true (d : dict) : bool :=
  match dget cyclic_flag d with Some (JBool true) => true | _ => false end.

Definition reference_handle (o j : dict) : M handled := fun V =>
  match dget "$ref" o with
  | None => Some (Raised, V)
  | Some ref_path =>
      match Hash.hash_key ref_path with
      | None => Some (Raised, V)
      | Some hk =>
          if decide (hk ∈ V) then Some (Returned (cyclic_placeholder ref_path j), V)
          else
            let V := V ∪ {[hk]} in
            match ref_path with
            | JStr ref =>
                let resolved_schema := resolve_ref ref in
                match get_description resolved_schema with
                | None => Some (Raised, V)
                | Some desc =>
                    if is_unresolved_desc desc
                    then Some (Returned (dupdate j resolved_schema), V)
                    else
                      match conv (JDict resolved_schema) V with
                      | None => None
                      | Some (result, V) =>
                          match get_description result with
                          | None => Some (Raised, V)
                          | Some rdesc =>
                              let j := if flag_is_true result
                                       then dset cyclic_flag (JBool true) j else j in
                              if is_recursive_error_desc rdesc
                              then Some (Returned (dupdate j result), V)
                              else Some (Returned (annotate o ref (dupdate j result)), V)
                          end
                      end
                end
            | _ => Some (Raised, V)
            end
      end
  end.

Definition ReferenceHandler : SchemaHandler :=
  {| can_handle := dhas "$ref"; handle := reference_handle |}.

(** *** [composition.py] *)

Definition dicts_of (l : list json) : list json := List.filter Py.is_dict l.

Definition composition_list (comp_key : string) (o j : dict) : M dict :=
  match Py.get comp_key o with
  | JList comp_value =>
      match dicts_of comp_value with
      | [] => ret j
      | valid_items =>
          let* converted := mapM conv valid_items in
          ret (dset comp_key (JList (map JDict converted)) j)
      end
  | _ => ret j
  end.

Definition composition_not (o j : dict) : M dict :=
  match Py.get "not" o with
  | JDict comp_value =>
      let* c := conv (JDict comp_value) in ret (dset "not" (JDict c) j)
  | _ => ret j
  end.

Definition composition_handle (o j : dict) : M handled :=
  let* j := composition_list "allOf" o j in
  let* j := composition_list "oneOf" o j in
  let* j := composition_list "anyOf" o j in
  let* j := composition_not o j in
  ret (Returned j).

Definition CompositionHandler : SchemaHandler :=
  {| can_handle := fun o => existsb (fun k => dhas k o) ["allOf"; "anyOf"; "oneOf"; "not"];
     handle := composition_handle |}.

(** *** [object_schema.py] *)

(** [for name, prop_schema in items: properties[name] = convert(prop_schema)] *)
Fixpoint convert_properties (items : dict) (properties : dict) : M dict :=
  match items with
  | [] => ret properties
  | (name, prop_schema) :: rest =>
      let* c := conv prop_schema in
      convert_properties rest (dset name (JDict c) properties)
  end.

Definition object_handle (o j : dict) : M handled :=
  let j := default_type (JStr "object") j in
  let j := dset "properties" (JDict []) j in
  let j := dset "required" (dget_default "required" (JList []) o) j in
  let* j :=
    match dget "properties" o with
    | Some (JDict items) =>
        let* properties := convert_properties (ditems items) [] in
        ret (dset "properties" (JDict properties) j)
    | _ => ret j
    end in
  match Py.get "additionalProperties" o with
  | JBool b => ret (Returned (dset "additionalProperties" (JBool b) j))
  | JDict add_props =>
      let* c := conv (JDict add_props) in
      ret (Returned (dset "additionalProperties" (JDict c) j))
  | _ => ret (Returned j)
  end.

Definition ObjectSchemaHandler : SchemaHandler :=
  {| can_handle := fun o => Py.eq_str (Py.get "type" o) "object" || dhas "properties" o;
     handle := object_handle |}.

(** *** [array_schema.py] *)

Definition array_handle (o j : dict) : M handled :=
  let j := default_type (JStr "array") j in
  let* c := conv (dget_default "items" (JDict []) o) in
  let j := dset "items" (JDict c) j in
  ret (Returned (copy_keys ["minItems"; "maxItems"; "uniqueItems"] o j)).

Definition ArraySchemaHandler : SchemaHandler :=
  {| can_handle := fun o => Py.eq_str (Py.get "type" o) "array" || dhas "items" o;
     handle := array_handle |}.

End Handlers.

(** *** [string_schema.py] *)

Definition known_formats : list string :=
  ["date"; "date-time"; "time"; "duration"; "email"; "idn-email"; "hostname";
   "idn-hostname"; "ipv4"; "ipv6"; "uri"; "uri-reference"; "iri";
   "iri-reference"; "uuid"; "json-pointer"; "relative-json-pointer"; "regex";
   "byte"; "binary"; "password"].

Definition string_handle (o j : dict) : dict :=
  let j := default_type (JStr "string") j in
  let j := copy_key "enum" o j in
  let j :=
    match dget "format" o with
    | Some fmt => if Py.in_strs fmt known_formats then dset "format" fmt j else j
    | None => j
    end in
  copy_keys ["pattern"; "minLength"; "maxLength"] o j.

Definition StringSchemaHandler : SchemaHandler :=
  pure_handler (fun o => Py.eq_str (Py.get "type" o) "string") string_handle.

(** *** [number_schema.py] *)

(** The [exclusiveMinimum] / [exclusiveMaximum] block, for the keyword [excl]
    and its boundary keyword [bound]. *)
Definition exclusive_bound (excl bound : string) (o j : dict) : dict :=
  match dget excl o with
  | None => j
  | Some (JBool b) =>
      if b then
        match dget bound o with
        | Some v => dset excl v j
        | None => j
        end
      else j
  | Some (JInt z) => dset excl (JInt z) j
  | Some (JFloat f) => dset excl (JFloat f) j
  | Some _ => dpop excl j
  end.

Definition number_handle (o j : dict) : dict :=
  let j := default_type (Py.get "type" o) j in
  let j := copy_key "format" o j in
  let j := copy_keys ["minimum"; "maximum"; "multipleOf"] o j in
  let j := exclusive_bound "exclusiveMinimum" "minimum" o j in
  exclusive_bound "exclusiveMaximum" "maximum" o j.

Definition NumberSchemaHandler : SchemaHandler :=
  pure_handler (fun o => Py.in_strs (Py.get "type" o) ["integer"; "number"]) number_handle.

(** *** [common.py] *)

Definition copy_common_keyword (o j : dict) (key : string) : dict :=
  match dget key o with
  | Some v =>
      if String.eqb key "example" then dset "examples" (JList [v]) j
      else dset key v j
  | None => j
  end.

Definition copy_common_keywords (o j : dict) : dict :=
  fold_left (copy_common_keyword o)
    ["description"; "title"; "default"; "example"; "readOnly"; "writeOnly";
     "deprecated"] j.

Definition handle_nullable (o j : dict) : dict :=
  if Py.truthy (dget_default "nullable" (JBool false) o) then
    match dget "type" j with
    | None => j
    | Some (JList current_type) =>
        if Py.str_in "null" current_type then j
        else dset "type" (JList (current_type ++ [JStr "null"])) j
    | Some current_type =>
        if Py.eq_str current_type "null" then j
        else dset "type" (JList [current_type; JStr "null"]) j
    end
  else j.

Definition common_handle (o j : dict) : dict :=
  handle_nullable o (copy_common_keywords o j).

Definition CommonSchemaHandler : SchemaHandler :=
  pure_handler (fun _ => true) common_handle.

(** ** The converter ([schema/converter.py]) *)

Section Converter.
Context {RT : PyRuntime}.
Variable full_spec : json.

Definition infer_type (o : dict) : json :=
  if dhas "properties" o then JStr "object"
  else if dhas "items" o then JStr "array"
  else JNull.

(** [self._handlers], for a converter whose [convert] is [conv] *)
Definition handlers (conv : json -> M dict) : list SchemaHandler :=
  [ ReferenceHandler full_spec conv;
    CompositionHandler conv;
    ObjectSchemaHandler conv;
    ArraySchemaHandler conv;
    StringSchemaHandler;
    NumberSchemaHandler;
    CommonSchemaHandler ].

(** The [for handler in self._handlers] loop.  The state is the output
    fragment and the local [is_cyclic_reference]; a handler that raises is
    logged and skipped. *)
Fixpoint run_handlers (hs : list SchemaHandler) (o : dict) (st : dict * bool)
  : M (dict * bool) :=
  match hs with
  | [] => ret st
  | h :: rest =>
      if can_handle h o then
        let* r := handle h o (fst st) in
        match r with
        | Returned j =>
            run_handlers rest o (j, snd st || Py.truthy (Py.get cyclic_flag j))
        | Raised => run_handlers rest o st
        end
      else run_handlers rest o st
  end.

Definition initial_schema (o : dict) : dict :=
  let schema_type := Py.or_else (Py.get "type" o) (infer_type o) in
  if Py.truthy schema_type then [("type", schema_type)] else [].

Definition finish (st : dict * bool) : dict :=
  if snd st then dset cyclic_flag (JBool true) (fst st) else fst st.

(** [SchemaConverter.convert] with a recursion budget of [n] nested calls *)
Fixpoint convert (n : nat) (openapi_schema : json) : M dict :=
  match n with
  | O => fun _ => None
  | S n' =>
      match openapi_schema with
      | JDict o =>
          let* st := run_handlers (handlers (convert n')) o (initial_schema o, false) in
          ret (finish st)
      | _ => ret []
      end
  end.

End Converter.

(** ** A concrete runtime, for evaluating the model on examples *)

Module StdRuntime.

Definition hex_value (c : ascii) : option nat :=
  let n := nat_of_ascii c in
  if PyStr.is_digit c then Some (n - 48)
  else if Nat.leb 65 n && Nat.leb n 70 then Some (n - 55)
  else if Nat.leb 97 n && Nat.leb n 102 then Some (n - 87)
  else None.

(** Percent-decoding of [%XX] escapes (the bytes of [urllib.parse.unquote]) *)
Fixpoint unquote_str (s : string) : string :=
  match s with
  | EmptyString => EmptyString
  | String c r =>
      if Ascii.eqb c "%" then
        match r with
        | String a (String b r') =>
            match hex_value a, hex_value b with
            | Some x, Some y =>
                String (ascii_of_nat (16 * x + y))
                  (match r with String _ (String _ r'') => unquote_str r'' | _ => EmptyString end)
            | _, _ => String c (unquote_str r)
            end
        | _ => String c (unquote_str r)
        end
      else String c (unquote_str r)
  end.

Fixpoint digits_value (s : string) (acc : Z) : option Z :=
  match s with
  | EmptyString => Some acc
  | String c r =>
      if PyStr.is_digit c
      then digits_value r (10 * acc + Z.of_nat (nat_of_ascii c - 48))
      else None
  end.

(** [int(s)] on an optional sign followed by decimal digits *)
Definition parse_int (s : string) : option Z :=
  match s with
  | EmptyString => None
  | String c r =>
      if Ascii.eqb c "-" then
        match r with EmptyString => None | _ => option_map Z.opp (digits_value r 0) end
      else if Ascii.eqb c "+" then
        match r with EmptyString => None | _ => digits_value r 0 end
      else digits_value s 0
  end.

(** [str(v)] of [None], a [bool] or an [int] *)
Definition str_of (v : json) : string :=
  match v with
  | JNull => "None"
  | JBool true => "True"
  | JBool false => "False"
  | JInt z => PyStr.of_Z z
  | JStr s => s
  | _ => ""
  end.

#[export] Instance runtime : PyRuntime :=
  {| unquote := unquote_str; int_of_str := parse_int; py_str := str_of |}.

End StdRuntime.

(** ** A recursion budget that is always enough *)

Fixpoint json_size (v : json) : nat :=
  match v with
  | JList l => S (list_sum (map json_size l))
  | JDict d => S (list_sum (map (fun kv => json_size (snd kv)) d))
  | _ => 1
  end.

(** Every string value of a document, among them all its reference paths *)
Fixpoint all_strs (v : json) : list string :=
  match v with
  | JStr s => [s]
  | JList l => concat (map all_strs l)
  | JDict d => concat (map (fun kv => all_strs (snd kv)) d)
  | _ => []
  end.

(** A conversion descends into a schema, or follows a reference that was not
    visited yet into the document. *)
Definition fuel_bound (full_spec s : json) : nat :=
  json_size s + length (all_strs full_spec ++ all_strs s) * S (json_size full_spec).

(** [openapi_schema_to_json_schema]: a fresh [SchemaConverter], hence an empty
    visited set.  The [None] branch is never taken ([convert_total]). *)
Definition openapi_schema_to_json_schema {RT : PyRuntime}
    (openapi_schema full_spec : json) : dict :=
  match convert full_spec (fuel_bound full_spec openapi_schema) openapi_schema ∅ with
  | Some (json_schema, _) => json_schema
  | None => []
  end.

(** ** The operation mapper ([mapping/mapper.py]) *)

(** The outcome of code that may raise *)
Inductive exc (A : Type) : Type :=
| Ok (a : A)
| Raise.
Arguments Ok {A} a.
Arguments Raise {A}.

Definition exc_bind {A B} (m : exc A) (f : A -> exc B) : exc B :=
  match m with Ok a => f a | Raise => Raise end.

(** The input schema under construction: [{"type": "object", "properties":
    ..., "required": ...}].  The keys of [properties] and the entries of
    [required] are parameter names, which are whatever the document has
    under [name]. *)
Record input_schema := InputSchema {
  properties : list (json * dict);
  required : list json
}.

Record processed_param := ProcessedParam {
  param_name : json;
  param_in : json;
  param_required : json
}.

Record processed_body := ProcessedBody {
  body_required : json;
  content_type : option string
}.

(** An MCP tool definition *)
Record tool := Tool {
  name : json;
  description : json;
  inputSchema : input_schema;
  original_method : string;
  original_path : string;
  original_parameters : list processed_param;
  original_request_body : option processed_body
}.

Module Props.

Definition same_key (hk : hkey) (k : json) : bool :=
  match Hash.hash_key k with
  | Some hk' => bool_decide (hk' = hk)
  | None => false
  end.

(** [properties.get(k)] *)
Definition pget (k : json) (d : list (json * dict)) : option dict :=
  match Hash.hash_key k with
  | Some hk =>
      match find (fun kv => same_key hk (fst kv)) d with
      | Some kv => Some (snd kv)
      | None => None
      end
  | None => None
  end.

Fixpoint pset_key (hk : hkey) (k : json) (v : dict) (d : list (json * dict))
  : list (json * dict) :=
  match d with
  | [] => [(k, v)]
  | (k', v') :: r =>
      if same_key hk k' then (k', v) :: r else (k', v') :: pset_key hk k v r
  end.

(** [properties[k] = v]; raises [TypeError] for an unhashable [k] *)
Definition pset (k : json) (v : dict) (d : list (json * dict))
  : exc (list (json * dict)) :=
  match Hash.hash_key k with
  | Some hk => Ok (pset_key hk k v d)
  | None => Raise
  end.

(** [set(l)], as the first occurrence of each member *)
Fixpoint set_of (l : list json) (seen : gset hkey) : exc (list (hkey * json)) :=
  match l with
  | [] => Ok []
  | x :: r =>
      match Hash.hash_key x with
      | None => Raise
      | Some hk =>
          if decide (hk ∈ seen) then set_of r seen
          else exc_bind (set_of r (seen ∪ {[hk]})) (fun s => Ok ((hk, x) :: s))
      end
  end.

(** [a < b] between two numbers m * 2^e *)
Definition num_ltb (m1 e1 m2 e2 : Z) : bool :=
  let e := Z.min e1 e2 in
  (m1 * 2 ^ (e1 - e) <? m2 * 2 ^ (e2 - e))%Z.

(** [a < b]; [None] stands for the [TypeError] of values that do not compare *)
Definition key_ltb (a b : hkey) : option bool :=
  match a, b with
  | HStr x, HStr y => Some (String.ltb x y)
  | HNum m1 e1, HNum m2 e2 => Some (num_ltb m1 e1 m2 e2)
  | _, _ => None
  end.

Definition ltb_total (a b : hkey) : bool :=
  match key_ltb a b with Some c => c | None => false end.

Fixpoint insert_sorted (x : hkey * json) (l : list (hkey * json)) : list (hkey * json) :=
  match l with
  | [] => [x]
  | y :: r => if ltb_total (fst y) (fst x) then y :: insert_sorted x r else x :: y :: r
  end.

Definition is_hstr (k : hkey) : bool := match k with HStr _ => true | _ => false end.
Definition is_hnum (k : hkey) : bool := match k with HNum _ _ => true | _ => false end.

(** [sorted(set(l))]: two or more members must all be strings or all be
    numbers, anything else raises [TypeError]. *)
Definition sorted_set (l : list json) : exc (list json) :=
  exc_bind (set_of l ∅) (fun s =>
    match s with
    | [] | [_] => Ok (map snd s)
    | _ =>
        if forallb (fun kv => is_hstr (fst kv)) s || forallb (fun kv => is_hnum (fst kv)) s
        then Ok (map snd (fold_right insert_sorted [] s))
        else Raise
    end).

End Props.

Definition http_methods : list string :=
  ["get"; "post"; "put"; "delete"; "patch"; "options"; "head"; "trace"].

Section Mapping.
Context {RT : PyRuntime}.

(** [self.spec] *)
Variable spec : dict.

(** [Mapper._resolve_ref]: a fresh [ReferenceHandler] on the mapper's
    converter; raises [AttributeError] unless [ref] is a string. *)
Definition mapper_resolve_ref (ref : json) : exc dict :=
  match ref with
  | JStr r => Ok (resolve_ref (JDict spec) r)
  | _ => Raise
  end.

(** [param = param_maybe_ref], replaced by its target if it has a [$ref] *)
Definition deref (d : dict) : exc dict :=
  match dget "$ref" d with
  | Some ref => mapper_resolve_ref ref
  | None => Ok d
  end.

(** One turn of the [for param_maybe_ref in parameters] loop *)
Definition process_parameter (param_maybe_ref : json)
    (st : list processed_param * input_schema)
  : exc (list processed_param * input_schema) :=
  let '(processed_params, input) := st in
  match param_maybe_ref with
  | JDict param0 =>
      exc_bind (deref param0) (fun param =>
        let param_name := Py.get "name" param in
        let param_in := Py.get "in" param in
        if negb (Py.truthy param_name)
           || negb (Py.in_strs param_in ["path"; "query"; "header"])
        then Ok st
        else
          let param_schema_openapi := dget_default "schema" (JDict []) param in
          let param_schema_json :=
            openapi_schema_to_json_schema param_schema_openapi (JDict spec) in
          let param_schema_json := copy_key "description" param param_schema_json in
          exc_bind (Props.pset param_name param_schema_json (properties input))
            (fun props =>
               let is_required := dget_default "required" (JBool false) param in
               let req := if Py.truthy is_required
                          then required input ++ [param_name] else required input in
               Ok (processed_params ++ [ProcessedParam param_name param_in is_required],
                   InputSchema props req)))
  | _ => Ok st
  end.

Fixpoint process_parameter_list (parameters : list json)
    (st : list processed_param * input_schema)
  : exc (list processed_param * input_schema) :=
  match parameters with
  | [] => Ok st
  | p :: rest => exc_bind (process_parameter p st) (process_parameter_list rest)
  end.

(** [Mapper._process_parameters] *)
Definition process_parameters (parameters : json) (input : input_schema)
  : exc (list processed_param * input_schema) :=
  match parameters with
  | JList l => process_parameter_list l ([], input)
  | _ => Ok ([], input)
  end.

(** The choice of [primary_content_type] and [body_schema_openapi] *)
Definition select_content (content : dict) : option string * json :=
  match dget "application/json" content with
  | Some (JDict media) => (Some "application/json", Py.get "schema" media)
  | _ =>
      match content with
      | (first_type, JDict media) :: _ => (Some first_type, Py.get "schema" media)
      | _ => (None, JNull)
      end
  end.

(** [Mapper._process_request_body] *)
Definition process_request_body (request_body_maybe_ref : json) (input : input_schema)
  : exc (option processed_body * input_schema) :=
  match request_body_maybe_ref with
  | JDict request_body0 =>
      exc_bind (deref request_body0) (fun request_body =>
        match dget_default "content" (JDict []) request_body with
        | JDict content =>
            let '(primary_content_type, body_schema_openapi) := select_content content in
            let is_required := dget_default "required" (JBool false) request_body in
            match primary_content_type, body_schema_openapi with
            | Some ct, JDict _ =>
                if Py.truthy (JStr ct) then
                  let body_schema_json :=
                    openapi_schema_to_json_schema body_schema_openapi (JDict spec) in
                  exc_bind (Props.pset (JStr "requestBody") body_schema_json (properties input))
                    (fun props =>
                       let req := if Py.truthy is_required
                                  then required input ++ [JStr "requestBody"]
                                  else required input in
                       Ok (Some (ProcessedBody is_required (Some ct)),
                           InputSchema props req))
                else if Py.truthy is_required
                     then Ok (Some (ProcessedBody (JBool true) None), input)
                     else Ok (None, input)
            | _, _ =>
                if Py.truthy is_required
                then Ok (Some (ProcessedBody (JBool true) None), input)
                else Ok (None, input)
            end
        | _ => Ok (None, input)
        end)
  | _ => Ok (None, input)
  end.

(** [parameters = operation.get("parameters", [])], replaced by [[]] unless
    it is a list *)
Definition operation_parameters (operation : dict) : json :=
  match dget_default "parameters" (JList []) operation with
  | JList l => JList l
  | _ => JList []
  end.

(** Whether [_process_request_body] finds a schema to convert:
    [primary_content_type and isinstance(body_schema_openapi, dict)] *)
Definition usable_schema (content : dict) : bool :=
  match select_content content with
  | (Some ct, JDict _) => Py.truthy (JStr ct)
  | _ => false
  end.

(** [Mapper._map_operation_to_tool] *)
Definition map_operation_to_tool (method path : string) (operation : dict) : exc tool :=
  let tool_name :=
    Py.or_else (Py.get "operationId" operation)
               (JStr (Naming.generate_tool_name method path)) in
  let description :=
    Py.or_else (Py.get "summary" operation)
      (dget_default "description"
         (JStr (PyStr.upper method +:+ " operation for " +:+ path)) operation) in
  let input := InputSchema [] [] in
  let parameters := operation_parameters operation in
  exc_bind (process_parameters parameters input) (fun '(processed_params, input) =>
  exc_bind (process_request_body (Py.get "requestBody" operation) input)
    (fun '(processed_request_body, input) =>
  exc_bind (Props.sorted_set (required input)) (fun req =>
  Ok {| name := tool_name;
        description := description;
        inputSchema := InputSchema (properties input) req;
        original_method := PyStr.upper method;
        original_path := path;
        original_parameters := processed_params;
        original_request_body := processed_request_body |}))).

(** The body of [for method, operation in path_item.items()] *)
Definition map_method (path : string) (mcp_tools : list tool) (entry : string * json)
  : list tool :=
  let '(method, operation) := entry in
  match operation with
  | JDict op =>
      if existsb (String.eqb (PyStr.lower method)) http_methods then
        match map_operation_to_tool method path op with
        | Ok tool_definition => mcp_tools ++ [tool_definition]
        | Raise => mcp_tools
        end
      else mcp_tools
  | _ => mcp_tools
  end.

(** The body of [for path, path_item in paths.items()] *)
Definition map_path (mcp_tools : list tool) (entry : string * json) : list tool :=
  let '(path, path_item) := entry in
  match path_item with
  | JDict methods => fold_left (map_method path) (ditems methods) mcp_tools
  | _ => mcp_tools
  end.

End Mapping.

(** A [Mapper] instance: its [spec], the accumulator [mcp_tools], and the
    visited set of the reference handler of its own [_schema_converter]. *)
Record Mapper := MkMapper {
  mapper_spec : dict;
  mcp_tools : list tool;
  schema_converter_visited : visited
}.

(** [Mapper.__init__]; raises [MappingError] unless [spec] is a dictionary *)
Definition new_mapper (spec : json) : exc Mapper :=
  match spec with
  | JDict d => Ok (MkMapper d [] ∅)
  | _ => Raise
  end.

(** [Mapper.map_tools] in the by-value reading: the list returned, or
    [Raise] for [MappingError], and the instance after the call, with the
    document every conversion was given.  A call during which
    [_handle_nullable] appends to a type list of the document changes what
    later conversions read, and the document of the instance:
    [Shared.map_tools] covers it. *)
Definition map_tools {RT : PyRuntime} (self : Mapper) : exc (list tool) * Mapper :=
  let self := MkMapper (mapper_spec self) [] (schema_converter_visited self) in
  match dget_default "paths" (JDict []) (mapper_spec self) with
  | JDict paths =>
      let tools :=
        fold_left (map_path (mapper_spec self)) (ditems paths) (mcp_tools self) in
      (Ok tools, MkMapper (mapper_spec self) tools (schema_converter_visited self))
  | _ => (Raise, self)
  end.

(** ** The document as a shared object *)

(** The by-value reading above is exact as long as no list of the document
    is updated in place.  [_handle_nullable] does update one: the [type] the
    converter puts into its output is the list object of the input schema,
    and [append] changes it where it is.  This module models the document as
    the one object all conversions of a [Mapper] read and write: an output
    holds the values it copied from the document by reference, and is read
    against the document as it stands. *)
Module Shared.

(** A place in the document: the keys and list positions leading to it *)
Inductive step : Type :=
| Key (k : string)
| Idx (i : nat).

Abbreviation path := (list step).

(** The object at [p] in [v] *)
Fixpoint at_path (p : path) (v : json) : option json :=
  match p with
  | [] => Some v
  | Key k :: r =>
      match v with
      | JDict d => match dget k d with Some x => at_path r x | None => None end
      | _ => None
      end
  | Idx i :: r =>
      match v with
      | JList l => match nth_error l i with Some x => at_path r x | None => None end
      | _ => None
      end
  end.

(** [l.append(x)] for the list [l] at [p] in [v] *)
Fixpoint append_at (p : path) (x : json) (v : json) : json :=
  match p, v with
  | [], JList l => JList (l ++ [x])
  | Key k :: r, JDict d =>
      match dget k d with
      | Some y => JDict (dset k (append_at r x y) d)
      | None => v
      end
  | Idx i :: r, JList l =>
      match nth_error l i with
      | Some y => JList (firstn i l ++ append_at r x y :: skipn (S i) l)
      | None => v
      end
  | _, _ => v
  end.

(** An object the converter or the mapper holds: a value of its own
    ([OLit], [OList], [ODict]: built by the code, shared with nothing), or
    the object of the document at a place ([ORef]). *)
Inductive obj : Type :=
| OLit (v : json)
| ORef (p : path)
| OList (l : list obj)
| ODict (d : list (string * obj)).

Abbreviation odict := (list (string * obj)).

(** What [o] reads as, with the document being [doc] *)
Fixpoint view (doc : json) (o : obj) : json :=
  match o with
  | OLit v => v
  | ORef p => match at_path p doc with Some v => v | None => JNull end
  | OList l => JList (map (view doc) l)
  | ODict d => JDict (map (fun kv => (fst kv, view doc (snd kv))) d)
  end.

Definition view_dict (doc : json) (j : odict) : dict :=
  map (fun kv => (fst kv, view doc (snd kv))) j.

(** The dictionary operations of [Dict], on an output fragment *)
Fixpoint aget (k : string) (d : odict) : option obj :=
  match d with
  | [] => None
  | (k', v) :: r => if String.eqb k' k then Some v else aget k r
  end.

Definition ahas (k : string) (d : odict) : bool :=
  match aget k d with Some _ => true | None => false end.

Fixpoint aset (k : string) (v : obj) (d : odict) : odict :=
  match d with
  | [] => [(k, v)]
  | (k', v') :: r =>
      if String.eqb k' k then (k', v) :: r else (k', v') :: aset k v r
  end.

Definition apop (k : string) (d : odict) : odict :=
  List.filter (fun kv => negb (String.eqb (fst kv) k)) d.

Fixpoint aitems (d : odict) : odict :=
  match d with
  | [] => []
  | (k, v) :: r => (k, v) :: apop k (aitems r)
  end.

Definition aupdate (d d2 : odict) : odict :=
  fold_left (fun acc kv => aset (fst kv) (snd kv) acc) (aitems d2) d.

(** A schema handed to the converter: the object of the document at a
    place, or an object made on the way (the [{}] of a [get] default, the
    placeholder of [resolve_ref]). *)
Inductive sch : Type :=
| At (p : path)
| New (v : json).

(** The value of the schema, with the document being [doc] *)
Definition content (s : sch) (doc : json) : json :=
  match s with
  | At p => match at_path p doc with Some v => v | None => JNull end
  | New v => v
  end.

(** The same for a schema known to be a dictionary *)
Definition fields (s : sch) (doc : json) : dict :=
  match content s doc with JDict d => d | _ => [] end.

(** [s[k]] or [s[i]], as the object it is *)
Definition sub (s : sch) (st : step) : sch :=
  match s with
  | At p => At (p ++ [st])
  | New v => New (match at_path [st] v with Some x => x | None => JNull end)
  end.

Definition as_obj (s : sch) : obj :=
  match s with At p => ORef p | New v => OLit v end.

(** [s[k]], to be stored in an output *)
Definition field (s : sch) (k : string) : obj := as_obj (sub s (Key k)).

(** [s.get(k)], with [None] for a missing key; [o] is the value of [s] *)
Definition get_field (s : sch) (o : dict) (k : string) : obj :=
  if dhas k o then field s k else OLit JNull.

(** [s.items()] *)
Definition entries (s : sch) (o : dict) : odict :=
  map (fun kv => (fst kv, field s (fst kv))) (ditems o).

(** The state of a conversion: the visited set of the converter's reference
    handler, and the document. *)
Definition SM (A : Type) : Type := visited * json -> option (A * (visited * json)).

Definition sret {A} (a : A) : SM A := fun st => Some (a, st).

Definition sbind {A B} (m : SM A) (f : A -> SM B) : SM B :=
  fun st => match m st with
            | Some (a, st') => f a st'
            | None => None
            end.

Notation "'let+' x ':=' m 'in' k" := (sbind m (fun x => k))
  (at level 10, x pattern, m at level 100, k at level 200).

Fixpoint smapM {A B} (f : A -> SM B) (l : list A) : SM (list B) :=
  match l with
  | [] => sret []
  | x :: r => let+ y := f x in let+ ys := smapM f r in sret (y :: ys)
  end.

(** The value of a schema now *)
Definition read (s : sch) : SM dict := fun st => Some (fields s (snd st), st).

(** What an output fragment, or one of its values, reads as now *)
Definition look (j : odict) : SM dict := fun st => Some (view_dict (snd st) j, st).

Definition see (t : obj) : SM json := fun st => Some (view (snd st) t, st).

Inductive handled : Type :=
| Returned (j : odict)
| Raised.

Record SchemaHandler := {
  can_handle : dict -> bool;
  handle : sch -> odict -> SM handled
}.

Definition pure_handler (can : dict -> bool) (h : sch -> dict -> odict -> odict)
  : SchemaHandler :=
  {| can_handle := can;
     handle := fun s j => let+ o := read s in sret (Returned (h s o j)) |}.

(** [if k in o: j[k] = o[k]] *)
Definition copy_key (k : string) (s : sch) (o : dict) (j : odict) : odict :=
  if dhas k o then aset k (field s k) j else j.

Definition copy_keys (ks : list string) (s : sch) (o : dict) (j : odict) : odict :=
  fold_left (fun acc k => copy_key k s o acc) ks j.

Definition default_type (t : obj) (j : odict) : odict :=
  if ahas "type" j then j else aset "type" t j.

Section Handlers.
Context {RT : PyRuntime}.
Variable conv : sch -> SM odict.

(** *** [reference.py] *)

(** [l[i]] as a position of [l] *)
Definition position (l : list json) (i : Z) : option nat :=
  let len := Z.of_nat (length l) in
  if (0 <=? i)%Z && (i <? len)%Z then Some (Z.to_nat i)
  else if (- len <=? i)%Z && (i <? 0)%Z then Some (Z.to_nat (len + i))
  else None.

(** The [for part_str in parts] loop of [resolve_ref], giving the place it
    arrives at *)
Fixpoint locate (parts : list string) (current : json) : option path :=
  match parts with
  | [] => Some []
  | part_str :: rest =>
      let decoded_part := unquote part_str in
      match current with
      | JList l =>
          match int_of_str decoded_part with
          | Some i =>
              match position l i with
              | Some n =>
                  match nth_error l n with
                  | Some v => option_map (cons (Idx n)) (locate rest v)
                  | None => None
                  end
              | None => None
              end
          | None => None
          end
      | JDict d =>
          match dget decoded_part d with
          | Some v => option_map (cons (Key decoded_part)) (locate rest v)
          | None => None
          end
      | _ => None
      end
  end.

(** [ReferenceHandler.resolve_ref] on a string *)
Definition resolve_ref (ref : string) (doc : json) : sch :=
  if negb (PyStr.startswith "#/" ref) then New (JDict (unresolved ref))
  else
    match locate (PyStr.split "/" (PyStr.drop 2 ref)) doc with
    | None => New (JDict (unresolved ref))
    | Some p =>
        match at_path p doc with
        | Some (JDict _) => At p
        | _ => New (JDict (not_an_object ref))
        end
    end.

Definition cyclic_placeholder (ref_path : json) (j : odict) : odict :=
  aset cyclic_flag (OLit (JBool true))
    (aupdate j [("description",
                 OLit (JStr ("Cyclic reference detected: " +:+ format_value ref_path)))]).

(** The provenance note; [o] is the value of the referring schema *)
Definition annotate (o : dict) (ref : string) (j : odict) : odict :=
  if ahas "description" j then j
  else
    let original_ref_desc := Py.get "description" o in
    if Py.truthy original_ref_desc then
      aset "description"
        (OLit (JStr (format_value original_ref_desc +:+ " (from ref: " +:+ ref +:+ ")"))) j
    else aset "description" (OLit (JStr ("(from ref: " +:+ ref +:+ ")"))) j.

Definition reference_handle (s : sch) (j : odict) : SM handled := fun st =>
  let '(V, doc) := st in
  match dget "$ref" (fields s doc) with
  | None => Some (Raised, st)
  | Some ref_path =>
      match Hash.hash_key ref_path with
      | None => Some (Raised, st)
      | Some hk =>
          if decide (hk ∈ V) then Some (Returned (cyclic_placeholder ref_path j), st)
          else
            let V := V ∪ {[hk]} in
            match ref_path with
            | JStr ref =>
                let resolved_schema := resolve_ref ref doc in
                let resolved := fields resolved_schema doc in
                match get_description resolved with
                | None => Some (Raised, (V, doc))
                | Some desc =>
                    if is_unresolved_desc desc
                    then Some (Returned (aupdate j (entries resolved_schema resolved)),
                               (V, doc))
                    else
                      match conv resolved_schema (V, doc) with
                      | None => None
                      | Some (result, (V, doc)) =>
                          match get_description (view_dict doc result) with
                          | None => Some (Raised, (V, doc))
                          | Some rdesc =>
                              let j := if flag_is_true (view_dict doc result)
                                       then aset cyclic_flag (OLit (JBool true)) j
                                       else j in
                              if is_recursive_error_desc rdesc
                              then Some (Returned (aupdate j result), (V, doc))
                              else Some (Returned (annotate (fields s doc) ref
                                                     (aupdate j result)), (V, doc))
                          end
                      end
                end
            | _ => Some (Raised, (V, doc))
            end
      end
  end.

Definition ReferenceHandler : SchemaHandler :=
  {| can_handle := dhas "$ref"; handle := reference_handle |}.

(** *** [composition.py] *)

(** The positions of the dictionaries of a list *)
Fixpoint dict_positions (l : list json) (i : nat) : list nat :=
  match l with
  | [] => []
  | v :: r => if Py.is_dict v then i :: dict_positions r (S i) else dict_positions r (S i)
  end.

Definition composition_list (comp_key : string) (s : sch) (j : odict) : SM odict :=
  let+ o := read s in
  match Py.get comp_key o with
  | JList comp_value =>
      match dict_positions comp_value 0 with
      | [] => sret j
      | valid_items =>
          let+ converted :=
            smapM (fun i => conv (sub (sub s (Key comp_key)) (Idx i))) valid_items in
          sret (aset comp_key (OList (map ODict converted)) j)
      end
  | _ => sret j
  end.

Definition composition_not (s : sch) (j : odict) : SM odict :=
  let+ o := read s in
  match Py.get "not" o with
  | JDict _ =>
      let+ c := conv (sub s (Key "not")) in sret (aset "not" (ODict c) j)
  | _ => sret j
  end.

Definition composition_handle (s : sch) (j : odict) : SM handled :=
  let+ j := composition_list "allOf" s j in
  let+ j := composition_list "oneOf" s j in
  let+ j := composition_list "anyOf" s j in
  let+ j := composition_not s j in
  sret (Returned j).

Definition CompositionHandler : SchemaHandler :=
  {| can_handle := fun o => existsb (fun k => dhas k o) ["allOf"; "anyOf"; "oneOf"; "not"];
     handle := composition_handle |}.

(** *** [object_schema.py] *)

Fixpoint convert_properties (props : sch) (names : list string) (properties : odict)
  : SM odict :=
  match names with
  | [] => sret properties
  | name :: rest =>
      let+ c := conv (sub props (Key name)) in
      convert_properties props rest (aset name (ODict c) properties)
  end.

Definition object_handle (s : sch) (j : odict) : SM handled :=
  let+ o := read s in
  let j := default_type (OLit (JStr "object")) j in
  let j := aset "properties" (ODict []) j in
  let j := aset "required"
             (if dhas "required" o then field s "required" else OLit (JList [])) j in
  let+ j :=
    match dget "properties" o with
    | Some (JDict items) =>
        let+ properties :=
          convert_properties (sub s (Key "properties")) (map fst (ditems items)) [] in
        sret (aset "properties" (ODict properties) j)
    | _ => sret j
    end in
  let+ o := read s in
  match Py.get "additionalProperties" o with
  | JBool b => sret (Returned (aset "additionalProperties" (OLit (JBool b)) j))
  | JDict _ =>
      let+ c := conv (sub s (Key "additionalProperties")) in
      sret (Returned (aset "additionalProperties" (ODict c) j))
  | _ => sret (Returned j)
  end.

Definition ObjectSchemaHandler : SchemaHandler :=
  {| can_handle := fun o => Py.eq_str (Py.get "type" o) "object" || dhas "properties" o;
     handle := object_handle |}.

(** *** [array_schema.py] *)

Definition array_handle (s : sch) (j : odict) : SM handled :=
  let j := default_type (OLit (JStr "array")) j in
  let+ o := read s in
  let+ c := conv (if dhas "items" o then sub s (Key "items") else New (JDict [])) in
  let j := aset "items" (ODict c) j in
  let+ o := read s in
  sret (Returned (copy_keys ["minItems"; "maxItems"; "uniqueItems"] s o j)).

Definition ArraySchemaHandler : SchemaHandler :=
  {| can_handle := fun o => Py.eq_str (Py.get "type" o) "array" || dhas "items" o;
     handle := array_handle |}.

End Handlers.

(** *** [string_schema.py] *)

Definition string_handle (s : sch) (o : dict) (j : odict) : odict :=
  let j := default_type (OLit (JStr "string")) j in
  let j := copy_key "enum" s o j in
  let j :=
    match dget "format" o with
    | Some fmt => if Py.in_strs fmt known_formats then aset "format" (field s "format") j else j
    | None => j
    end in
  copy_keys ["pattern"; "minLength"; "maxLength"] s o j.

Definition StringSchemaHandler : SchemaHandler :=
  pure_handler (fun o => Py.eq_str (Py.get "type" o) "string") string_handle.

(** *** [number_schema.py] *)

Definition exclusive_bound (excl bound : string) (s : sch) (o : dict) (j : odict) : odict :=
  match dget excl o with
  | None => j
  | Some (JBool b) =>
      if b then (if dhas bound o then aset excl (field s bound) j else j)
      else j
  | Some (JInt _) | Some (JFloat _) => aset excl (field s excl) j
  | Some _ => apop excl j
  end.

Definition number_handle (s : sch) (o : dict) (j : odict) : odict :=
  let j := default_type (get_field s o "type") j in
  let j := copy_key "format" s o j in
  let j := copy_keys ["minimum"; "maximum"; "multipleOf"] s o j in
  let j := exclusive_bound "exclusiveMinimum" "minimum" s o j in
  exclusive_bound "exclusiveMaximum" "maximum" s o j.

Definition NumberSchemaHandler : SchemaHandler :=
  pure_handler (fun o => Py.in_strs (Py.get "type" o) ["integer"; "number"]) number_handle.

(** *** [common.py] *)

Definition copy_common_keyword (s : sch) (o : dict) (j : odict) (key : string) : odict :=
  if dhas key o then
    if String.eqb key "example" then aset "examples" (OList [field s key]) j
    else aset key (field s key) j
  else j.

Definition copy_common_keywords (s : sch) (o : dict) (j : odict) : odict :=
  fold_left (copy_common_keyword s o)
    ["description"; "title"; "default"; "example"; "readOnly"; "writeOnly";
     "deprecated"] j.

(** [json_schema["type"].append("null")]: the list is changed where it is,
    in the document if it is a list of the document. *)
Definition append_null (t : obj) (j : odict) : SM odict := fun st =>
  let '(V, doc) := st in
  match t with
  | ORef p => Some (j, (V, append_at p (JStr "null") doc))
  | OList l => Some (aset "type" (OList (l ++ [OLit (JStr "null")])) j, st)
  | OLit (JList l) => Some (aset "type" (OLit (JList (l ++ [JStr "null"]))) j, st)
  | _ => Some (j, st)
  end.

Definition handle_nullable (s : sch) (j : odict) : SM odict :=
  let+ o := read s in
  if Py.truthy (dget_default "nullable" (JBool false) o) then
    match aget "type" j with
    | None => sret j
    | Some t =>
        let+ current_type := see t in
        match current_type with
        | JList l =>
            if Py.str_in "null" l then sret j
            else append_null t j
        | _ =>
            if Py.eq_str current_type "null" then sret j
            else sret (aset "type" (OList [t; OLit (JStr "null")]) j)
        end
    end
  else sret j.

Definition common_handle (s : sch) (j : odict) : SM handled :=
  let+ o := read s in
  let+ j := handle_nullable s (copy_common_keywords s o j) in
  sret (Returned j).

Definition CommonSchemaHandler : SchemaHandler :=
  {| can_handle := fun _ => true; handle := common_handle |}.

(** ** The converter ([schema/converter.py]) *)

Section Converter.
Context {RT : PyRuntime}.

Definition handlers (conv : sch -> SM odict) : list SchemaHandler :=
  [ ReferenceHandler conv;
    CompositionHandler conv;
    ObjectSchemaHandler conv;
    ArraySchemaHandler conv;
    StringSchemaHandler;
    NumberSchemaHandler;
    CommonSchemaHandler ].

Fixpoint run_handlers (hs : list SchemaHandler) (s : sch) (st : odict * bool)
  : SM (odict * bool) :=
  match hs with
  | [] => sret st
  | h :: rest =>
      let+ o := read s in
      if can_handle h o then
        let+ r := handle h s (fst st) in
        match r with
        | Returned j =>
            let+ out := look j in
            run_handlers rest s (j, snd st || Py.truthy (Py.get cyclic_flag out))
        | Raised => run_handlers rest s st
        end
      else run_handlers rest s st
  end.

Definition initial_schema (s : sch) (o : dict) : odict :=
  if Py.truthy (Py.get "type" o) then [("type", field s "type")]
  else
    let schema_type := infer_type o in
    if Py.truthy schema_type then [("type", OLit schema_type)] else [].

Definition finish (st : odict * bool) : odict :=
  if snd st then aset cyclic_flag (OLit (JBool true)) (fst st) else fst st.

(** [SchemaConverter.convert] with a recursion budget of [n] nested calls *)
Fixpoint convert (n : nat) (openapi_schema : sch) : SM odict :=
  match n with
  | O => fun _ => None
  | S n' => fun st =>
      match content openapi_schema (snd st) with
      | JDict o =>
          (let+ r := run_handlers (handlers (convert n')) openapi_schema
                       (initial_schema openapi_schema o, false) in
           sret (finish r)) st
      | _ => Some ([], st)
      end
  end.

End Converter.


(** ** The operation mapper ([mapping/mapper.py]) *)

(** [openapi_schema_to_json_schema]: a fresh [SchemaConverter] on the
    document, with a budget of [n] nested calls *)
Definition openapi_schema_to_json_schema {RT : PyRuntime} (n : nat)
    (openapi_schema : sch) (doc : json) : option (odict * json) :=
  match convert n openapi_schema (∅, doc) with
  | Some (json_schema, (_, doc)) => Some (json_schema, doc)
  | None => None
  end.

Record input_schema := InputSchema {
  properties : list (json * odict);
  required : list json
}.

Record processed_param := ProcessedParam {
  param_name : json;
  param_in : json;
  param_required : obj
}.

Record processed_body := ProcessedBody {
  body_required : obj;
  content_type : option string
}.

Record tool := Tool {
  name : obj;
  description : obj;
  inputSchema : input_schema;
  original_method : string;
  original_path : string;
  original_parameters : list processed_param;
  original_request_body : option processed_body
}.

(** [properties[k] = v]; raises [TypeError] for an unhashable [k] *)
Fixpoint pset_key (hk : hkey) (k : json) (v : odict) (d : list (json * odict))
  : list (json * odict) :=
  match d with
  | [] => [(k, v)]
  | (k', v') :: r =>
      if Props.same_key hk k' then (k', v) :: r else (k', v') :: pset_key hk k v r
  end.

Definition pset (k : json) (v : odict) (d : list (json * odict))
  : exc (list (json * odict)) :=
  match Hash.hash_key k with
  | Some hk => Ok (pset_key hk k v d)
  | None => Raise
  end.

(** A step of the mapper: it may raise, and it leaves the document as the
    conversions it made left it, also when it raises; [None] means a
    conversion ran out of budget. *)
Definition W (A : Type) : Type := json -> option (exc A * json).

Definition wret {A} (a : A) : W A := fun doc => Some (Ok a, doc).

Definition wbind {A B} (m : W A) (f : A -> W B) : W B :=
  fun doc => match m doc with
             | Some (Ok a, doc') => f a doc'
             | Some (Raise, doc') => Some (Raise, doc')
             | None => None
             end.

Section Mapping.
Context {RT : PyRuntime}.
Variable n : nat.

Definition mapper_resolve_ref (ref : json) : W sch := fun doc =>
  match ref with
  | JStr r => Some (Ok (resolve_ref r doc), doc)
  | _ => Some (Raise, doc)
  end.

Definition deref (s : sch) : W sch := fun doc =>
  match dget "$ref" (fields s doc) with
  | Some ref => mapper_resolve_ref ref doc
  | None => Some (Ok s, doc)
  end.

(** [d.get(k, default)] for an object [d] whose value is [o] *)
Definition get_default (s : sch) (o : dict) (k : string) (default : json) : obj :=
  if dhas k o then field s k else OLit default.

(** One turn of the [for param_maybe_ref in parameters] loop *)
Definition process_parameter (param_maybe_ref : sch)
    (st : list processed_param * input_schema)
  : W (list processed_param * input_schema) := fun doc =>
  let '(processed_params, input) := st in
  match content param_maybe_ref doc with
  | JDict _ =>
      wbind (deref param_maybe_ref) (fun param doc =>
        let p := fields param doc in
        let param_name := Py.get "name" p in
        let param_in := Py.get "in" p in
        if negb (Py.truthy param_name)
           || negb (Py.in_strs param_in ["path"; "query"; "header"])
        then Some (Ok st, doc)
        else
          let param_schema_openapi :=
            if dhas "schema" p then sub param (Key "schema") else New (JDict []) in
          match openapi_schema_to_json_schema n param_schema_openapi doc with
          | None => None
          | Some (param_schema_json, doc) =>
              let p := fields param doc in
              let param_schema_json := copy_key "description" param p param_schema_json in
              match pset param_name param_schema_json (properties input) with
              | Raise => Some (Raise, doc)
              | Ok props =>
                  let is_required := dget_default "required" (JBool false) p in
                  let req := if Py.truthy is_required
                             then required input ++ [param_name] else required input in
                  Some (Ok (processed_params
                              ++ [ProcessedParam param_name param_in
                                    (get_default param p "required" (JBool false))],
                            InputSchema props req), doc)
              end
          end) doc
  | _ => Some (Ok st, doc)
  end.

Fixpoint process_parameter_list (parameters : sch) (positions : list nat)
    (st : list processed_param * input_schema)
  : W (list processed_param * input_schema) :=
  match positions with
  | [] => wret st
  | i :: rest =>
      wbind (process_parameter (sub parameters (Idx i)) st)
            (process_parameter_list parameters rest)
  end.

(** [Mapper._process_parameters], for the list that [_map_operation_to_tool]
    hands over: [operation["parameters"]] if that is a list, else a [[]] *)
Definition process_parameters (operation : sch) (input : input_schema)
  : W (list processed_param * input_schema) := fun doc =>
  match dget_default "parameters" (JList []) (fields operation doc) with
  | JList l =>
      process_parameter_list (sub operation (Key "parameters")) (seq 0 (length l))
        ([], input) doc
  | _ => Some (Ok ([], input), doc)
  end.

(** [Mapper._process_request_body] *)
Definition process_request_body (request_body_maybe_ref : sch) (input : input_schema)
  : W (option processed_body * input_schema) := fun doc =>
  match content request_body_maybe_ref doc with
  | JDict _ =>
      wbind (deref request_body_maybe_ref) (fun request_body doc =>
        let r := fields request_body doc in
        match dget_default "content" (JDict []) r with
        | JDict content =>
            let '(primary_content_type, body_schema_openapi) := select_content content in
            let is_required := dget_default "required" (JBool false) r in
            match primary_content_type, body_schema_openapi with
            | Some ct, JDict _ =>
                if Py.truthy (JStr ct) then
                  let schema :=
                    sub (sub (sub request_body (Key "content")) (Key ct)) (Key "schema") in
                  match openapi_schema_to_json_schema n schema doc with
                  | None => None
                  | Some (body_schema_json, doc) =>
                      let r := fields request_body doc in
                      let is_required := dget_default "required" (JBool false) r in
                      match pset (JStr "requestBody") body_schema_json (properties input) with
                      | Raise => Some (Raise, doc)
                      | Ok props =>
                          let req := if Py.truthy is_required
                                     then required input ++ [JStr "requestBody"]
                                     else required input in
                          Some (Ok (Some (ProcessedBody
                                            (get_default request_body r "required"
                                               (JBool false))
                                            (Some ct)),
                                    InputSchema props req), doc)
                      end
                  end
                else if Py.truthy is_required
                     then Some (Ok (Some (ProcessedBody (OLit (JBool true)) None), input), doc)
                     else Some (Ok (None, input), doc)
            | _, _ =>
                if Py.truthy is_required
                then Some (Ok (Some (ProcessedBody (OLit (JBool true)) None), input), doc)
                else Some (Ok (None, input), doc)
            end
        | _ => Some (Ok (None, input), doc)
        end) doc
  | _ => Some (Ok (None, input), doc)
  end.

(** [Mapper._map_operation_to_tool] *)
Definition map_operation_to_tool (method path : string) (operation : sch) : W tool :=
  fun doc =>
  let op := fields operation doc in
  let tool_name :=
    if Py.truthy (Py.get "operationId" op) then field operation "operationId"
    else OLit (JStr (Naming.generate_tool_name method path)) in
  let description :=
    if Py.truthy (Py.get "summary" op) then field operation "summary"
    else get_default operation op "description"
           (JStr (PyStr.upper method +:+ " operation for " +:+ path)) in
  let input := InputSchema [] [] in
  wbind (process_parameters operation input) (fun '(processed_params, input) =>
  wbind (process_request_body
           (if dhas "requestBody" op then sub operation (Key "requestBody") else New JNull)
           input)
    (fun '(processed_request_body, input) doc =>
       match Props.sorted_set (required input) with
       | Raise => Some (Raise, doc)
       | Ok req =>
           Some (Ok {| name := tool_name;
                       description := description;
                       inputSchema := InputSchema (properties input) req;
                       original_method := PyStr.upper method;
                       original_path := path;
                       original_parameters := processed_params;
                       original_request_body := processed_request_body |}, doc)
       end)) doc.

(** The [for method, operation in path_item.items()] loop *)
Fixpoint map_methods (path : string) (path_item : sch) (methods : list string)
    (mcp_tools : list tool) (doc : json) : option (list tool * json) :=
  match methods with
  | [] => Some (mcp_tools, doc)
  | method :: rest =>
      let operation := sub path_item (Key method) in
      match content operation doc with
      | JDict _ =>
          if existsb (String.eqb (PyStr.lower method)) http_methods then
            match map_operation_to_tool method path operation doc with
            | Some (Ok tool_definition, doc) =>
                map_methods path path_item rest (mcp_tools ++ [tool_definition]) doc
            | Some (Raise, doc) => map_methods path path_item rest mcp_tools doc
            | None => None
            end
          else map_methods path path_item rest mcp_tools doc
      | _ => map_methods path path_item rest mcp_tools doc
      end
  end.

(** The [for path, path_item in paths.items()] loop *)
Fixpoint map_paths (paths : sch) (keys : list string) (mcp_tools : list tool)
    (doc : json) : option (list tool * json) :=
  match keys with
  | [] => Some (mcp_tools, doc)
  | path :: rest =>
      let path_item := sub paths (Key path) in
      match content path_item doc with
      | JDict methods =>
          match map_methods path path_item (map fst (ditems methods)) mcp_tools doc with
          | Some (mcp_tools, doc) => map_paths paths rest mcp_tools doc
          | None => None
          end
      | _ => map_paths paths rest mcp_tools doc
      end
  end.

End Mapping.

(** A [Mapper] instance: its [spec], a dictionary, and the accumulator
    [mcp_tools] *)
Record Mapper := MkMapper {
  mapper_spec : json;
  mcp_tools : list tool
}.

(** [Mapper.__init__]; raises [MappingError] unless [spec] is a dictionary *)
Definition new_mapper (spec : json) : exc Mapper :=
  match spec with
  | JDict _ => Ok (MkMapper spec [])
  | _ => Raise
  end.

(** [Mapper.map_tools], with a budget of [n] nested calls for each schema
    conversion: the list returned, or [Raise] for [MappingError], and the
    instance after the call; [None] if a conversion ran out of budget. *)
Definition map_tools {RT : PyRuntime} (n : nat) (self : Mapper)
  : option (exc (list tool) * Mapper) :=
  let self := MkMapper (mapper_spec self) [] in
  match dget_default "paths" (JDict []) (fields (At []) (mapper_spec self)) with
  | JDict paths =>
      match map_paths n (At [Key "paths"]) (map fst (ditems paths)) (mcp_tools self)
              (mapper_spec self) with
      | Some (tools, spec) => Some (Ok tools, MkMapper spec tools)
      | None => None
      end
  | _ => Some (Raise, self)
  end.

End Shared.

(** * The vocabulary of the properties *)

(** ** Values *)

Definition is_bool (v : json) : bool :=
  match v with JBool _ => true | _ => false end.

(** [isinstance(v, (int, float))] for a [v] that is not a [bool] *)
Definition is_number (v : json) : bool :=
  match v with JInt _ | JFloat _ => true | _ => false end.

Definition is_list (v : json) : bool :=
  match v with JList _ => true | _ => false end.

(** The two exclusive keywords with their boundary keywords *)
Definition exclusive_pair (excl bound : string) : Prop :=
  (excl = "exclusiveMinimum" /\ bound = "minimum")
  \/ (excl = "exclusiveMaximum" /\ bound = "maximum").

(** How often ["null"] occurs in a type list *)
Definition count_null (l : list json) : nat :=
  length (List.filter (fun v => Py.eq_str v "null") l).

(** ** Converters *)

(** A converter never forgets a visited reference. *)
Definition extends (conv : json -> M dict) : Prop :=
  forall s V j V', conv s V = Some (j, V') -> V ⊆ V'.

(** [conv'] returns what [conv] returns, wherever [conv] returns *)
Definition refines (conv conv' : json -> M dict) : Prop :=
  forall s V r, conv s V = Some r -> conv' s V = Some r.

Definition desc_ok (d : dict) : Prop := exists s, get_description d = Some s.

(** A description that does not make a reference target look like a
    placeholder: absent, or a string other than the unresolved-reference
    messages *)
Definition plain_description (o : dict) : Prop :=
  exists desc, get_description o = Some desc /\ is_unresolved_desc desc = false.

(** [U] holds every string of [v] *)
Definition covers (U : gset hkey) (v : json) : Prop :=
  forall s, In s (all_strs v) -> HStr s ∈ U.

(** At most [k] strings of [U] are not visited yet *)
Definition budget (U : gset hkey) (k : nat) (V : visited) : Prop := size (U ∖ V) <= k.

(** [conv] returns on every schema of size at most [sz] whose strings are in
    [U], as long as at most [k] strings of [U] are unvisited *)
Definition total_on (U : gset hkey) (conv : json -> M dict) (k sz : nat) : Prop :=
  forall s V, covers U s -> json_size s <= sz -> budget U k V ->
              exists j V', conv s V = Some (j, V').

(** ** References *)

(** A schema that is a reference and nothing else *)
Definition plain_ref (p : string) : json := JDict [("$ref", JStr p)].

(** [p] is a same-document path that leads to a map *)
Definition resolves_to {RT : PyRuntime} (full_spec : json) (p : string) (target : dict) : Prop :=
  PyStr.startswith "#/" p = true
  /\ traverse (PyStr.split "/" (PyStr.drop 2 p)) full_spec = Some (JDict target).

(** The provenance note for a fragment that has no description *)
Definition with_provenance (p : string) (r : dict) : dict :=
  if dhas "description" r then r
  else dset "description" (JStr ("(from ref: " +:+ p +:+ ")")) r.

(** The placeholder of a second encounter, on an empty output fragment *)
Definition cyclic_marker (p : string) : dict :=
  [("description", JStr ("Cyclic reference detected: " +:+ p));
   (cyclic_flag, JBool true)].

(** A diamond: two properties that hold the same reference *)
Definition diamond (a b p : string) : dict :=
  [("type", JStr "object");
   ("properties", JDict [(a, plain_ref p); (b, plain_ref p)])].

(** The tree has [_is_cyclic_reference: true] somewhere: in the map itself
    or in a map below it. *)
Inductive marked : json -> Prop :=
| marked_here (d : dict) :
    dget cyclic_flag d = Some (JBool true) -> marked (JDict d)
| marked_below (d : dict) (k : string) (v : json) :
    dget k d = Some v -> marked v -> marked (JDict d).

(** The same, as a search of the whole tree: [true] if some map of the tree
    has [_is_cyclic_reference: true] among its entries. *)
Fixpoint has_marker (v : json) : bool :=
  match v with
  | JDict d =>
      existsb (fun kv => String.eqb (fst kv) cyclic_flag
                         && match snd kv with JBool true => true | _ => false end) d
      || existsb (fun kv => has_marker (snd kv)) d
  | _ => false
  end.

(** An object schema that has, under its property [key], a reference to [p] *)
Definition refers_to (o : dict) (key p : string) : Prop :=
  exists props,
    dget "properties" o = Some (JDict props) /\ dget key props = Some (plain_ref p).

(** [A] at [pA] and [B] at [pB] refer to each other *)
Definition cyclic_pair {RT : PyRuntime} (full_spec : json)
    (pA pB : string) (A B : dict) (kA kB : string) : Prop :=
  resolves_to full_spec pA A /\ resolves_to full_spec pB B
  /\ refers_to A kA pB /\ refers_to B kB pA
  /\ plain_description A /\ plain_description B.

(** ** The mapping call *)

(** The tools of one method entry of a path item: none unless the key is an
    HTTP verb and the value a map, and none if mapping the operation raises *)
Definition tools_of_method {RT : PyRuntime} (spec : dict) (path : string)
    (entry : string * json) : list tool :=
  match snd entry with
  | JDict op =>
      if existsb (String.eqb (PyStr.lower (fst entry))) http_methods then
        match map_operation_to_tool spec (fst entry) path op with
        | Ok t => [t]
        | Raise => []
        end
      else []
  | _ => []
  end.

(** The tools of one entry of [paths]: none unless the path item is a map *)
Definition tools_of_path {RT : PyRuntime} (spec : dict) (entry : string * json)
  : list tool :=
  match snd entry with
  | JDict methods => flat_map (tools_of_method spec (fst entry)) (ditems methods)
  | _ => []
  end.

(** What a tool of the shared-document model reads as, with the document
    being [doc] *)
Definition view_input (doc : json) (i : Shared.input_schema) : input_schema :=
  InputSchema (map (fun kv => (fst kv, Shared.view_dict doc (snd kv))) (Shared.properties i))
              (Shared.required i).

Definition view_param (doc : json) (p : Shared.processed_param) : processed_param :=
  ProcessedParam (Shared.param_name p) (Shared.param_in p)
                 (Shared.view doc (Shared.param_required p)).

Definition view_body (doc : json) (b : Shared.processed_body) : processed_body :=
  ProcessedBody (Shared.view doc (Shared.body_required b)) (Shared.content_type b).

Definition view_tool (doc : json) (t : Shared.tool) : tool :=
  Tool (Shared.view doc (Shared.name t)) (Shared.view doc (Shared.description t))
       (view_input doc (Shared.inputSchema t))
       (Shared.original_method t) (Shared.original_path t)
       (map (view_param doc) (Shared.original_parameters t))
       (option_map (view_body doc) (Shared.original_request_body t)).

(** Two calls of [map_tools] one after the other on one instance, and the
    two lists they returned as they read after the second call *)
Definition map_tools_twice {RT : PyRuntime} (n : nat) (self : Shared.Mapper)
  : option (exc (list tool) * exc (list tool) * json) :=
  match Shared.map_tools n self with
  | Some (first, self) =>
      match Shared.map_tools n self with
      | Some (second, self) =>
          let doc := Shared.mapper_spec self in
          let read r := match r with
                        | Ok tools => Ok (map (view_tool doc) tools)
                        | Raise => Raise
                        end in
          Some (read first, read second, doc)
      | None => None
      end
  | None => None
  end.

(** ** Example documents *)

Definition pet_spec : json :=
  JDict [("components", JDict [("schemas", JDict [
     ("Pet", JDict [("type", JStr "string"); ("description", JStr "A pet")]);
     ("Id", JDict [("type", JStr "integer")])])])].

Definition cyclic_spec : json :=
  JDict [("components", JDict [("schemas", JDict [
    ("CyclicA", JDict [("type", JStr "object");
                       ("properties",
                        JDict [("b", plain_ref "#/components/schemas/CyclicB")])]);
    ("CyclicB", JDict [("type", JStr "object");
                       ("properties",
                        JDict [("a", plain_ref "#/components/schemas/CyclicA")])])])])].

(** A cyclic pair whose first reference has a [type] beside it *)
Definition typed_ref_spec : json :=
  JDict [("components", JDict [("schemas", JDict [
    ("A", JDict [("type", JStr "object");
                 ("properties",
                  JDict [("b", JDict [("$ref", JStr "#/components/schemas/B");
                                      ("type", JStr "object")])])]);
    ("B", JDict [("type", JStr "object");
                 ("properties",
                  JDict [("a", plain_ref "#/components/schemas/A")])])])])].

(** The documents of [tests/unit/test_mapper.py] with invalid entries *)
Definition invalid_spec : dict :=
  [("openapi", JStr "3.0.0");
   ("info", JDict [("title", JStr "Invalid"); ("version", JStr "1.0")]);
   ("paths", JDict [
      ("/good", JDict [("get", JDict [("summary", JStr "Good one");
                                      ("responses", JDict [("200", JDict [])])])]);
      ("/bad1", JStr "not an object");
      ("/bad2", JDict [("invalid-method", JDict [("summary", JStr "Bad method")])]);
      ("/bad3", JDict [("get", JStr "not an operation object")]);
      ("/bad4", JDict [("get", JDict [("parameters", JStr "not a list")])])])].

Definition invalid_paths_spec : dict :=
  [("openapi", JStr "3.0.0");
   ("info", JDict [("title", JStr "Invalid Paths"); ("version", JStr "1.0")]);
   ("paths", JStr "this should be a dictionary")].

(** A document with a type list beside [nullable], and a reference into
    that list *)
Definition shared_type_spec : json :=
  JDict [
    ("paths", JDict [
       ("/a", JDict [("get", JDict [("parameters", JList [
          JDict [("name", JStr "x"); ("in", JStr "query");
                 ("schema", plain_ref "#/components/schemas/T/type/1")]])])]);
       ("/b", JDict [("get", JDict [("parameters", JList [
          JDict [("name", JStr "y"); ("in", JStr "query");
                 ("schema", plain_ref "#/components/schemas/T")]])])])]);
    ("components", JDict [("schemas", JDict [
       ("T", JDict [("type", JList [JStr "string"]); ("nullable", JBool true)])])])].

(** * Properties *)

(** ** Dictionaries *)

Section DictFacts.
Implicit Types (k : string) (v : json) (d : dict).

Lemma dget_dset_eq k v d : dget k (dset k v d) = Some v.
Proof.
  induction d as [|[k' v'] r IH]; simpl.
  - by rewrite String.eqb_refl.
  - destruct (String.eqb k' k) eqn:E; simpl; rewrite E; auto.
Qed.

Lemma dget_dset_ne k k' v d : k <> k' -> dget k' (dset k v d) = dget k' d.
Proof.
  intros Hne. induction d as [|[k0 v0] r IH]; simpl.
  - destruct (String.eqb k k') eqn:E; [apply String.eqb_eq in E; congruence | done].
  - destruct (String.eqb k0 k) eqn:E; simpl.
    + apply String.eqb_eq in E; subst k0.
      destruct (String.eqb k k') eqn:E'; [apply String.eqb_eq in E'; congruence | done].
    + by rewrite IH.
Qed.

Lemma dget_dset k k' v d :
  dget k' (dset k v d) = if String.eqb k k' then Some v else dget k' d.
Proof.
  destruct (String.eqb k k') eqn:E.
  - apply String.eqb_eq in E; subst. apply dget_dset_eq.
  - apply String.eqb_neq in E. by apply dget_dset_ne.
Qed.

Lemma dget_dpop_eq k d : dget k (dpop k d) = None.
Proof.
  unfold dpop. induction d as [|[k' v'] r IH]; simpl; [done|].
  destruct (String.eqb k' k) eqn:E; simpl; [done|]. by rewrite E.
Qed.

Lemma dget_dpop_ne k k' d : k <> k' -> dget k' (dpop k d) = dget k' d.
Proof.
  intros Hne. unfold dpop. induction d as [|[k0 v0] r IH]; simpl; [done|].
  destruct (String.eqb k0 k) eqn:E; simpl.
  - apply String.eqb_eq in E; subst k0.
    destruct (String.eqb k k') eqn:E'; [apply String.eqb_eq in E'; congruence | done].
  - by rewrite IH.
Qed.

Lemma dhas_dset_ne k k' v d : k <> k' -> dhas k' (dset k v d) = dhas k' d.
Proof. intros. unfold dhas. by rewrite dget_dset_ne. Qed.

Lemma dset_keys_NoDup k v d : NoDup (map fst d) -> NoDup (map fst (dset k v d)).
Proof.
  induction d as [|[k' v'] r IH]; simpl; intros Hnd.
  - constructor; [set_solver | constructor].
  - destruct (String.eqb k' k) eqn:E; simpl; [done|].
    apply NoDup_cons in Hnd as [Hin Hnd]. apply NoDup_cons. split; [|auto].
    intros Hin'. apply Hin. clear -Hin' E.
    apply String.eqb_neq in E.
    induction r as [|[k0 v0] r IH]; simpl in *.
    + set_solver.
    + destruct (String.eqb k0 k) eqn:E0; simpl in *; [done|]. set_solver.
Qed.

Lemma dget_None_not_in k d : dget k d = None -> k ∉ map fst d.
Proof.
  induction d as [|[k' v'] r IH]; simpl; [set_solver|].
  destruct (String.eqb k' k) eqn:E; [done|]. apply String.eqb_neq in E.
  intros H. set_solver.
Qed.

Lemma dset_fresh k v d : dget k d = None -> dset k v d = d ++ [(k, v)].
Proof.
  induction d as [|[k' v'] r IH]; simpl; [done|].
  destruct (String.eqb k' k) eqn:E; [done|]. intros H. by rewrite IH.
Qed.

Lemma In_dpop kv k d : In kv (dpop k d) -> In kv d.
Proof. unfold dpop. rewrite filter_In. tauto. Qed.

Lemma In_ditems kv d : In kv (ditems d) -> In kv d.
Proof.
  induction d as [|[k v] r IH]; simpl; [done|].
  intros [H|H]; [by left|]. right. eauto using In_dpop.
Qed.

Lemma keys_dpop k d : k ∉ map fst (dpop k d).
Proof.
  unfold dpop. induction d as [|[k' v'] r IH]; simpl; [set_solver|].
  destruct (String.eqb k' k) eqn:E; simpl; [done|].
  apply String.eqb_neq in E. set_solver.
Qed.

Lemma keys_dpop_sub k k' d : k' ∈ map fst (dpop k d) -> k' ∈ map fst d.
Proof.
  unfold dpop. induction d as [|[k0 v0] r IH]; simpl; [done|].
  destruct (String.eqb k0 k); simpl; set_solver.
Qed.

Lemma dpop_NoDup k d : NoDup (map fst d) -> NoDup (map fst (dpop k d)).
Proof.
  induction d as [|[k' v'] r IH]; simpl; intros Hnd; [done|].
  apply NoDup_cons in Hnd as [Hin Hnd]. unfold dpop in *. simpl.
  destruct (String.eqb k' k); simpl; [auto|].
  apply NoDup_cons. split; [|auto].
  intros Hin'. apply Hin. by apply (keys_dpop_sub k).
Qed.

Lemma ditems_NoDup d : NoDup (map fst (ditems d)).
Proof.
  induction d as [|[k v] r IH]; simpl; [constructor|].
  apply NoDup_cons. split; [apply keys_dpop | by apply dpop_NoDup].
Qed.

Lemma dget_ditems k d : dget k (ditems d) = dget k d.
Proof.
  induction d as [|[k' v'] r IH]; simpl; [done|].
  destruct (String.eqb k' k) eqn:E; [done|].
  apply String.eqb_neq in E. by rewrite dget_dpop_ne.
Qed.

Lemma dget_fold_dset_not_in k d l :
  k ∉ map fst l ->
  dget k (fold_left (fun acc kv => dset (fst kv) (snd kv) acc) l d) = dget k d.
Proof.
  revert d. induction l as [|[k0 v0] r IH]; simpl; intros d Hin; [done|].
  rewrite IH; [|set_solver]. apply dget_dset_ne. set_solver.
Qed.

Lemma dget_fold_dset k d l :
  NoDup (map fst l) ->
  dget k (fold_left (fun acc kv => dset (fst kv) (snd kv) acc) l d)
  = match dget k l with Some v => Some v | None => dget k d end.
Proof.
  revert d. induction l as [|[k0 v0] r IH]; simpl; intros d Hnd; [done|].
  apply NoDup_cons in Hnd as [Hin Hnd].
  destruct (String.eqb k0 k) eqn:E.
  - apply String.eqb_eq in E; subst k0.
    rewrite dget_fold_dset_not_in; [apply dget_dset_eq | done].
  - rewrite IH; [|done]. apply String.eqb_neq in E.
    by rewrite dget_dset_ne.
Qed.

(** [d.update(d2)] read back *)
Lemma dget_dupdate k d d2 :
  dget k (dupdate d d2) = match dget k d2 with Some v => Some v | None => dget k d end.
Proof.
  unfold dupdate. rewrite dget_fold_dset by apply ditems_NoDup.
  by rewrite dget_ditems.
Qed.

End DictFacts.

(** ** Tool naming *)

(** C7: [generate_tool_name] is a function of the method and the path, and
    on the five listed inputs it gives [get_root], [post_users],
    [get_users_by_userId], [get_a_b] and [post_complex_path]. *)
Theorem generate_tool_name_examples :
  Naming.generate_tool_name "GET" "/" = "get_root"
  /\ Naming.generate_tool_name "POST" "/users" = "post_users"
  /\ Naming.generate_tool_name "GET" "/users/{userId}" = "get_users_by_userId"
  /\ Naming.generate_tool_name "GET" "/a-@!#$-b" = "get_a_b"
  /\ Naming.generate_tool_name "PoSt" "/complex/path" = "post_complex_path".
Proof. repeat split; vm_compute; reflexivity. Qed.

(** The cases of [tests/test_mapping_utils.py] *)
Example naming_test_cases :
  Naming.generate_tool_name "DELETE" "/users/{userId}/posts/{postId}"
    = "delete_users_by_userId_posts_by_postId"
  /\ Naming.generate_tool_name "PATCH" "items/{itemId}/" = "patch_items_by_itemId"
  /\ Naming.generate_tool_name "GET" "/search?query=term" = "get_search_query_term"
  /\ Naming.generate_tool_name "GET" "/items/{item-id}" = "get_items_by_item_id"
  /\ Naming.generate_tool_name "POST" "/data/import/v1.0" = "post_data_import_v1_0"
  /\ Naming.generate_tool_name "GET" "/a///b" = "get_a_b"
  /\ Naming.generate_tool_name "POST" "/_internal/check" = "post_internal_check".
Proof. repeat split; reflexivity. Qed.

(** ** The number handler *)

Lemma dget_copy_key_ne k k' o j : k <> k' -> dget k' (copy_key k o j) = dget k' j.
Proof. intros. unfold copy_key. destruct (dget k o); [by apply dget_dset_ne | done]. Qed.

Lemma dget_copy_keys_ne ks k' o j :
  k' ∉ ks -> dget k' (copy_keys ks o j) = dget k' j.
Proof.
  unfold copy_keys. revert j.
  induction ks as [|k r IH]; simpl; intros j Hin; [done|].
  rewrite IH; [|set_solver]. apply dget_copy_key_ne. set_solver.
Qed.

Lemma dget_default_type_ne t k' j : k' <> "type" -> dget k' (default_type t j) = dget k' j.
Proof.
  intros. unfold default_type. destruct (dhas "type" j); [done|].
  by apply dget_dset_ne.
Qed.

Lemma dget_exclusive_bound_ne excl bound k' o j :
  excl <> k' -> dget k' (exclusive_bound excl bound o j) = dget k' j.
Proof.
  intros. unfold exclusive_bound.
  repeat case_match; auto using dget_dset_ne, dget_dpop_ne.
Qed.

(** What one exclusive block leaves under its own keyword *)
Lemma dget_exclusive_bound excl bound o j :
  dget excl (exclusive_bound excl bound o j) =
    match dget excl o with
    | None => dget excl j
    | Some (JBool true) =>
        match dget bound o with Some v => Some v | None => dget excl j end
    | Some (JBool false) => dget excl j
    | Some v => if is_number v then Some v else None
    end.
Proof.
  unfold exclusive_bound.
  repeat case_match; simplify_eq; simpl in *;
    auto using dget_dset_eq, dget_dpop_eq; try done.
Qed.

(** The fragment the exclusive blocks start from keeps what the earlier
    lines of [handle] did not write. *)
Lemma number_handle_prefix_frame k o j :
  k ∉ ["type"; "format"; "minimum"; "maximum"; "multipleOf"] ->
  dget k (copy_keys ["minimum"; "maximum"; "multipleOf"] o
            (copy_key "format" o (default_type (Py.get "type" o) j))) = dget k j.
Proof.
  intros Hk.
  rewrite dget_copy_keys_ne; [|set_solver].
  rewrite dget_copy_key_ne; [|set_solver].
  apply dget_default_type_ne. set_solver.
Qed.

Lemma number_handle_exclusive_get excl bound o j :
  exclusive_pair excl bound ->
  dget excl (number_handle o j) =
    match dget excl o with
    | None => dget excl j
    | Some (JBool true) =>
        match dget bound o with Some v => Some v | None => dget excl j end
    | Some (JBool false) => dget excl j
    | Some v => if is_number v then Some v else None
    end.
Proof.
  intros [[-> ->] | [-> ->]]; unfold number_handle.
  - rewrite dget_exclusive_bound_ne by done.
    rewrite dget_exclusive_bound.
    rewrite number_handle_prefix_frame; [done | set_solver].
  - rewrite dget_exclusive_bound.
    rewrite dget_exclusive_bound_ne by done.
    rewrite number_handle_prefix_frame; [done | set_solver].
Qed.

(** C8: what [NumberSchemaHandler.handle] leaves under [exclusiveMinimum]
    (resp. [exclusiveMaximum]): the boundary value for a boolean true with
    [minimum] (resp. [maximum]) present; nothing written for a boolean false,
    so the keyword is absent from an output that did not have it; the value
    itself for a number; nothing at all for any other type. *)
Theorem number_handle_exclusive (excl bound : string) (o j : dict) :
  exclusive_pair excl bound ->
  let out := number_handle o j in
  (forall m, dget excl o = Some (JBool true) -> dget bound o = Some m ->
             dget excl out = Some m)
  /\ (dget excl o = Some (JBool false) ->
      dget excl out = dget excl j /\ (dget excl j = None -> dget excl out = None))
  /\ (forall v, dget excl o = Some v -> is_number v = true -> dget excl out = Some v)
  /\ (forall v, dget excl o = Some v -> is_bool v = false -> is_number v = false ->
                dget excl out = None).
Proof.
  intros Hp out. subst out.
  pose proof (number_handle_exclusive_get excl bound o j Hp) as Hget.
  repeat split.
  - intros m He Hb. by rewrite Hget, He, Hb.
  - rewrite Hget. by rewrite H.
  - intros Hj. rewrite Hget, H. done.
  - intros v He Hn. rewrite Hget, He. destruct v; simpl in *; try done.
  - intros v He Hb Hn. rewrite Hget, He. destruct v; simpl in *; try done.
Qed.

Lemma number_handle_exclusive_witness :
  let o := [("type", JStr "number"); ("minimum", JInt 0); ("exclusiveMinimum", JBool true);
            ("maximum", JInt 100); ("exclusiveMaximum", JBool false)] in
  dget "exclusiveMinimum" (number_handle o []) = Some (JInt 0)
  /\ dget "exclusiveMaximum" (number_handle o []) = None.
Proof.
  intros o. split.
  - destruct (number_handle_exclusive "exclusiveMinimum" "minimum" o []
                (or_introl (conj eq_refl eq_refl))) as (Htrue & _).
    exact (Htrue (JInt 0) eq_refl eq_refl).
  - destruct (number_handle_exclusive "exclusiveMaximum" "maximum" o []
                (or_intror (conj eq_refl eq_refl))) as (_ & Hfalse & _).
    exact (proj2 (Hfalse eq_refl) eq_refl).
Defined.

(** ** The nullable transformation *)

Lemma str_in_count_null l : Py.str_in "null" l = false -> count_null l = 0.
Proof.
  unfold Py.str_in, count_null. induction l as [|v r IH]; simpl; [done|].
  destruct (Py.eq_str v "null"); simpl; [done | auto].
Qed.

Lemma count_null_app l1 l2 : count_null (l1 ++ l2) = count_null l1 + count_null l2.
Proof. unfold count_null. by rewrite List.filter_app, length_app. Qed.

Lemma str_in_app_null l : Py.str_in "null" (l ++ [JStr "null"]) = true.
Proof. unfold Py.str_in. rewrite existsb_app. simpl. by rewrite orb_true_r. Qed.

Lemma handle_nullable_idempotent o j :
  handle_nullable o (handle_nullable o j) = handle_nullable o j.
Proof.
  unfold handle_nullable.
  destruct (Py.truthy (dget_default "nullable" (JBool false) o)); [|done].
  destruct (dget "type" j) as [t|] eqn:Ht; [|by rewrite Ht].
  destruct t; simpl; rewrite ?Ht; simpl; rewrite ?dget_dset_eq; simpl; try done.
  - destruct (String.eqb s "null") eqn:E; [by rewrite Ht; simpl; rewrite E|].
    rewrite dget_dset_eq. simpl. by rewrite E.
  - destruct (Py.str_in "null" l) eqn:E; [by rewrite Ht, E|].
    by rewrite dget_dset_eq, str_in_app_null.
Qed.

(** C9 (as amended): with [nullable] true, a scalar type other than ["null"]
    becomes the two-element list of that type and ["null"]; a list type
    without ["null"] gets it appended once; the scalar ["null"] and a list
    that already has ["null"] are left as they are; a second application
    changes nothing; and the transformation does nothing when [nullable] is
    absent or false or when no type is set. *)
Theorem handle_nullable_spec (o j : dict) :
  handle_nullable o (handle_nullable o j) = handle_nullable o j
  /\ (Py.truthy (dget_default "nullable" (JBool false) o) = false ->
      handle_nullable o j = j)
  /\ (dget "type" j = None -> handle_nullable o j = j)
  /\ (Py.truthy (dget_default "nullable" (JBool false) o) = true ->
      forall t, dget "type" j = Some t ->
        (is_list t = false -> Py.eq_str t "null" = false ->
           dget "type" (handle_nullable o j) = Some (JList [t; JStr "null"])
           /\ count_null [t; JStr "null"] = 1)
        /\ (t = JStr "null" -> handle_nullable o j = j)
        /\ (forall l, t = JList l -> Py.str_in "null" l = true ->
              handle_nullable o j = j)
        /\ (forall l, t = JList l -> Py.str_in "null" l = false ->
              dget "type" (handle_nullable o j) = Some (JList (l ++ [JStr "null"]))
              /\ count_null (l ++ [JStr "null"]) = 1)).
Proof.
  split; [apply handle_nullable_idempotent|].
  unfold handle_nullable.
  split; [by intros ->|].
  split; [intros ->; by destruct (Py.truthy _)|].
  intros -> t Ht. rewrite Ht.
  repeat split.
  - destruct t; simpl in *; try done; try apply dget_dset_eq.
    rewrite H0. apply dget_dset_eq.
  - unfold count_null. simpl. by rewrite H0.
  - by intros ->.
  - intros l -> Hin. by rewrite Hin.
  - subst t. rewrite H0. apply dget_dset_eq.
  - rewrite count_null_app, (str_in_count_null l) by done. done.
Qed.

(** C9, as stated, fails where the type is the scalar ["null"]: the type is
    left a scalar, it is not turned into a list. *)
Lemma handle_nullable_null_stays_scalar :
  let o := [("type", JStr "null"); ("nullable", JBool true)] in
  let j := [("type", JStr "null")] in
  dget "type" (handle_nullable o j) = Some (JStr "null")
  /\ ~ (exists l, dget "type" (handle_nullable o j) = Some (JList l) /\ count_null l = 1).
Proof.
  simpl. split; [reflexivity|]. intros (l & Hl & _). vm_compute in Hl. discriminate.
Qed.

(** ** The request body *)

Section RequestBody.
Context {RT : PyRuntime}.
Variable spec : dict.

(** A required body with no usable schema: the provenance record is written,
    the input schema is not touched. *)
Lemma process_request_body_no_schema rb0 rb content input :
  deref spec rb0 = Ok rb ->
  dget_default "content" (JDict []) rb = JDict content ->
  usable_schema content = false ->
  Py.truthy (dget_default "required" (JBool false) rb) = true ->
  process_request_body spec (JDict rb0) input
  = Ok (Some (ProcessedBody (JBool true) None), input).
Proof.
  intros Hd Hc Hu Hr. unfold process_request_body. rewrite Hd. cbn [exc_bind].
  rewrite Hc. unfold usable_schema in Hu.
  destruct (select_content content) as [[ct|] sch].
  - destruct sch; rewrite ?Hr; try done. by rewrite Hu.
  - by rewrite Hr.
Qed.

(** A body whose selected entry has a schema: the provenance records the
    selected content type and the body's own [required] value. *)
Lemma process_request_body_schema rb0 rb content ct sch input :
  deref spec rb0 = Ok rb ->
  dget_default "content" (JDict []) rb = JDict content ->
  select_content content = (Some ct, JDict sch) ->
  ct <> "" ->
  exists input',
    process_request_body spec (JDict rb0) input
    = Ok (Some (ProcessedBody (dget_default "required" (JBool false) rb) (Some ct)),
          input').
Proof.
  intros Hd Hc Hs Hne. unfold process_request_body. rewrite Hd. cbn [exc_bind].
  rewrite Hc, Hs.
  assert (Py.truthy (JStr ct) = true) as ->.
  { simpl. destruct (String.eqb ct "") eqn:E; [|done].
    apply String.eqb_eq in E. done. }
  unfold Props.pset. simpl. eauto.
Qed.

End RequestBody.

Section SortedSet.

Lemma In_insert_sorted x y l : In x (Props.insert_sorted y l) -> x = y \/ In x l.
Proof.
  induction l as [|z r IH]; simpl; [naive_solver|].
  destruct (Props.ltb_total (fst z) (fst y)); simpl; naive_solver.
Qed.

Lemma In_fold_insert_sorted x s :
  In x (fold_right Props.insert_sorted [] s) -> In x s.
Proof.
  induction s as [|y r IH]; simpl; [done|].
  intros H. apply In_insert_sorted in H as [->|H]; auto.
Qed.

Lemma In_set_of l : forall seen s x,
  Props.set_of l seen = Ok s -> In x (map snd s) -> In x l.
Proof.
  induction l as [|y r IH]; simpl; intros seen s x Hs Hin.
  - by simplify_eq.
  - destruct (Hash.hash_key y) as [hk|]; [|done].
    destruct (decide (hk ∈ seen)); [eauto|].
    destruct (Props.set_of r _) as [s'|] eqn:E; [|done]. simpl in Hs. simplify_eq.
    simpl in Hin. destruct Hin as [->|Hin]; eauto.
Qed.

(** [sorted(set(l))] has no member that [l] has not. *)
Lemma In_sorted_set l req x : Props.sorted_set l = Ok req -> In x req -> In x l.
Proof.
  unfold Props.sorted_set.
  destruct (Props.set_of l ∅) as [s|] eqn:E; [|done]. simpl.
  intros Hs Hin.
  assert (In x (map snd s)) as Hin'.
  { destruct s as [|a [|b s]]; simplify_eq; try done.
    destruct (_ || _); [|done]. simplify_eq.
    apply in_map_iff in Hin as (kv & <- & Hkv).
    apply in_map.
    change (In kv (fold_right Props.insert_sorted [] (a :: b :: s))) in Hkv.
    by apply In_fold_insert_sorted in Hkv. }
  eauto using In_set_of.
Qed.

End SortedSet.

(** C1 (as amended): for an operation whose request body is marked required,
    whose [content] is absent or a map, and under which no usable schema is
    found, the provenance record is [{required: true, content_type: null}]
    and the request body contributes nothing to the input schema: its
    [properties] and [required] are those the parameters gave, so a
    [requestBody] entry is in neither unless a parameter put it there. *)
Theorem required_body_without_schema {RT : PyRuntime}
    (spec : dict) (method path : string) (operation rb0 rb content : dict)
    (processed_params : list processed_param) (input : input_schema) (t : tool) :
  dget "requestBody" operation = Some (JDict rb0) ->
  deref spec rb0 = Ok rb ->
  dget_default "content" (JDict []) rb = JDict content ->
  usable_schema content = false ->
  Py.truthy (dget_default "required" (JBool false) rb) = true ->
  process_parameters spec (operation_parameters operation) (InputSchema [] [])
  = Ok (processed_params, input) ->
  map_operation_to_tool spec method path operation = Ok t ->
  original_request_body t = Some (ProcessedBody (JBool true) None)
  /\ properties (inputSchema t) = properties input
  /\ Props.sorted_set (required input) = Ok (required (inputSchema t))
  /\ (Props.pget (JStr "requestBody") (properties input) = None ->
      Props.pget (JStr "requestBody") (properties (inputSchema t)) = None)
  /\ (~ In (JStr "requestBody") (required input) ->
      ~ In (JStr "requestBody") (required (inputSchema t))).
Proof.
  intros Hrb Hd Hc Hu Hr Hp Ht.
  unfold map_operation_to_tool in Ht. rewrite Hp in Ht. simpl in Ht.
  assert (Py.get "requestBody" operation = JDict rb0) as Hget.
  { unfold Py.get, dget_default. by rewrite Hrb. }
  rewrite Hget in Ht.
  rewrite (process_request_body_no_schema spec rb0 rb content input) in Ht by done.
  simpl in Ht.
  destruct (Props.sorted_set (required input)) as [req|] eqn:Hs; [|done].
  simpl in Ht. simplify_eq. simpl.
  repeat split; auto.
  intros Hn Hin. apply Hn. eauto using In_sorted_set.
Qed.

Lemma required_body_without_schema_witness :
  let operation :=
    [("requestBody", JDict [("required", JBool true);
                            ("content", JDict [("application/json", JDict [])])])] in
  exists t,
    map_operation_to_tool (RT := StdRuntime.runtime) [] "post" "/upload" operation = Ok t
    /\ original_request_body t = Some (ProcessedBody (JBool true) None)
    /\ properties (inputSchema t) = [].
Proof.
  intros operation.
  destruct (map_operation_to_tool (RT := StdRuntime.runtime) [] "post" "/upload" operation)
    as [t|] eqn:Ht; [|vm_compute in Ht; discriminate].
  exists t. split; [reflexivity|].
  destruct (required_body_without_schema (RT := StdRuntime.runtime)
              [] "post" "/upload" operation
              [("required", JBool true); ("content", JDict [("application/json", JDict [])])]
              [("required", JBool true); ("content", JDict [("application/json", JDict [])])]
              [("application/json", JDict [])] [] (InputSchema [] []) t
              eq_refl eq_refl eq_refl eq_refl eq_refl eq_refl Ht)
    as (Hbody & Hprops & _).
  split; [exact Hbody | exact Hprops].
Defined.

(** C1, as stated, fails: the [required] list of the tool does not contain
    [requestBody] when no usable schema is found. *)
Lemma required_body_without_schema_not_required :
  let operation :=
    [("requestBody", JDict [("required", JBool true);
                            ("content", JDict [("application/json", JDict [])])])] in
  exists t,
    map_operation_to_tool (RT := StdRuntime.runtime) [] "post" "/upload" operation = Ok t
    /\ original_request_body t = Some (ProcessedBody (JBool true) None)
    /\ Props.pget (JStr "requestBody") (properties (inputSchema t)) = None
    /\ ~ In (JStr "requestBody") (required (inputSchema t)).
Proof.
  eexists. split; [vm_compute; reflexivity|].
  repeat split. intros [].
Qed.

(** C6 (as amended): when the [application/json] entry of the content map is
    a map with a map-valued schema, the recorded content type is
    [application/json], whatever other media types are declared; when there
    is no [application/json] entry and the first declared entry (of a
    non-empty name) is a map with a map-valued schema, the recorded content
    type is that first one. *)
Theorem content_type_selection {RT : PyRuntime}
    (spec rb0 rb content : dict) (input : input_schema) :
  deref spec rb0 = Ok rb ->
  dget_default "content" (JDict []) rb = JDict content ->
  (forall media sch,
     dget "application/json" content = Some (JDict media) ->
     dget "schema" media = Some (JDict sch) ->
     exists input',
       process_request_body spec (JDict rb0) input
       = Ok (Some (ProcessedBody (dget_default "required" (JBool false) rb)
                                 (Some "application/json")), input'))
  /\ (forall first_type media rest sch,
        dget "application/json" content = None ->
        content = (first_type, JDict media) :: rest ->
        first_type <> "" ->
        dget "schema" media = Some (JDict sch) ->
        exists input',
          process_request_body spec (JDict rb0) input
          = Ok (Some (ProcessedBody (dget_default "required" (JBool false) rb)
                                    (Some first_type)), input')).
Proof.
  intros Hd Hc. split.
  - intros media sch Hj Hs.
    apply (process_request_body_schema spec rb0 rb content "application/json" sch);
      try done.
    unfold select_content. rewrite Hj. unfold Py.get, dget_default. by rewrite Hs.
  - intros first_type media rest sch Hj -> Hne Hs.
    apply (process_request_body_schema spec rb0 rb
             ((first_type, JDict media) :: rest) first_type sch); try done.
    unfold select_content. rewrite Hj. unfold Py.get, dget_default. by rewrite Hs.
Qed.

Lemma content_type_selection_witness :
  let json_media := JDict [("schema", JDict [("type", JStr "object")])] in
  let xml_media := JDict [("schema", JDict [("type", JStr "string")])] in
  let rb := [("required", JBool true);
             ("content", JDict [("application/xml", xml_media);
                                ("application/json", json_media)])] in
  exists input',
    process_request_body (RT := StdRuntime.runtime) [] (JDict rb) (InputSchema [] [])
    = Ok (Some (ProcessedBody (JBool true) (Some "application/json")), input').
Proof.
  intros json_media xml_media rb.
  exact (proj1 (content_type_selection (RT := StdRuntime.runtime) [] rb rb
                  [("application/xml", xml_media); ("application/json", json_media)]
                  (InputSchema [] []) eq_refl eq_refl)
               [("schema", JDict [("type", JStr "object")])]
               [("type", JStr "object")] eq_refl eq_refl).
Defined.

(** C6, as stated, fails when the [application/json] entry carries no schema:
    no other entry is tried and no content type is recorded. *)
Lemma content_type_json_without_schema :
  let content := [("application/json", JDict []);
                  ("application/xml",
                   JDict [("schema", JDict [("type", JStr "string")])])] in
  let rb := [("required", JBool true); ("content", JDict content)] in
  dhas "application/json" content = true
  /\ dhas "application/xml" content = true
  /\ process_request_body (RT := StdRuntime.runtime) [] (JDict rb) (InputSchema [] [])
     = Ok (Some (ProcessedBody (JBool true) None), InputSchema [] [])
  /\ ~ (exists required input',
          process_request_body (RT := StdRuntime.runtime) [] (JDict rb) (InputSchema [] [])
          = Ok (Some (ProcessedBody required (Some "application/json")), input')).
Proof.
  simpl. repeat split. intros (required & input' & H). vm_compute in H. discriminate.
Qed.

(** ** Computations on a converter *)

Section MonadFacts.
Context {A B : Type}.

Lemma bind_Some (m : M A) (f : A -> M B) V b V'' :
  bind m f V = Some (b, V'') <->
  exists a V', m V = Some (a, V') /\ f a V' = Some (b, V'').
Proof.
  unfold bind. split.
  - destruct (m V) as [[a V']|]; [eauto | done].
  - intros (a & V' & -> & Hf). done.
Qed.

Lemma ret_Some (a : A) V a' V' : ret a V = Some (a', V') <-> a' = a /\ V' = V.
Proof. unfold ret. naive_solver. Qed.

End MonadFacts.

Ltac inv_bind H :=
  let a := fresh "a" in let V := fresh "V" in
  let H1 := fresh "Hm" in
  apply bind_Some in H as (a & V & H1 & H).

Ltac inv_ret H := apply ret_Some in H as [? ?]; simplify_eq.

Section Extends.
Context {RT : PyRuntime}.
Variable full_spec : json.
Variable conv : json -> M dict.
Hypothesis conv_extends : extends conv.

Lemma mapM_extends (l : list json) V js V' :
  mapM conv l V = Some (js, V') -> V ⊆ V'.
Proof.
  revert V js V'. induction l as [|x r IH]; simpl; intros V js V' H.
  - by inv_ret H.
  - inv_bind H. inv_bind H. inv_ret H.
    apply conv_extends in Hm. apply IH in Hm0. set_solver.
Qed.

Lemma reference_handle_extends o j V r V' :
  reference_handle full_spec conv o j V = Some (r, V') -> V ⊆ V'.
Proof.
  unfold reference_handle. intros H.
  repeat (case_match; simplify_eq; try set_solver).
  all: match goal with Hc : conv _ _ = Some _ |- _ => apply conv_extends in Hc end.
  all: set_solver.
Qed.

Lemma composition_list_extends key o j V j' V' :
  composition_list conv key o j V = Some (j', V') -> V ⊆ V'.
Proof.
  unfold composition_list. intros H.
  repeat case_match; try (by inv_ret H).
  all: inv_bind H; inv_ret H; by apply mapM_extends in Hm.
Qed.

Lemma composition_not_extends o j V j' V' :
  composition_not conv o j V = Some (j', V') -> V ⊆ V'.
Proof.
  unfold composition_not. intros H.
  repeat case_match; try (by inv_ret H).
  inv_bind H. inv_ret H. by apply conv_extends in Hm.
Qed.

Lemma composition_handle_extends o j V r V' :
  composition_handle conv o j V = Some (r, V') -> V ⊆ V'.
Proof.
  unfold composition_handle. intros H.
  do 4 inv_bind H. inv_ret H.
  apply composition_list_extends in Hm, Hm0, Hm1.
  apply composition_not_extends in Hm2.
  set_solver.
Qed.

Lemma convert_properties_extends items acc V props V' :
  convert_properties conv items acc V = Some (props, V') -> V ⊆ V'.
Proof.
  revert acc V. induction items as [|[name ps] r IH]; simpl; intros acc V H.
  - by inv_ret H.
  - inv_bind H. apply conv_extends in Hm. apply IH in H. set_solver.
Qed.

Lemma object_handle_extends o j V r V' :
  object_handle conv o j V = Some (r, V') -> V ⊆ V'.
Proof.
  unfold object_handle. intros H. inv_bind H.
  assert (V ⊆ V0).
  { clear H. repeat case_match; try (inv_ret Hm; set_solver).
    inv_bind Hm. inv_ret Hm. by apply convert_properties_extends in Hm0. }
  assert (V0 ⊆ V'); [|set_solver].
  clear Hm. repeat case_match; try (inv_ret H; set_solver).
  inv_bind H. inv_ret H. by apply conv_extends in Hm.
Qed.

Lemma array_handle_extends o j V r V' :
  array_handle conv o j V = Some (r, V') -> V ⊆ V'.
Proof.
  unfold array_handle. intros H. inv_bind H. inv_ret H. by apply conv_extends in Hm.
Qed.

Lemma handlers_extend h o j V r V' :
  In h (handlers full_spec conv) ->
  handle h o j V = Some (r, V') -> V ⊆ V'.
Proof.
  unfold handlers. simpl.
  intros [<-|[<-|[<-|[<-|[<-|[<-|[<-|[]]]]]]]]; simpl.
  - apply reference_handle_extends.
  - apply composition_handle_extends.
  - apply object_handle_extends.
  - apply array_handle_extends.
  - intros H; by inv_ret H.
  - intros H; by inv_ret H.
  - intros H; by inv_ret H.
Qed.

End Extends.

(** The handler loop, one property at a time: [P] holds of the state of the
    loop throughout if every applicable handler keeps it. *)
Lemma run_handlers_invariant (P : dict * bool -> visited -> Prop)
    (hs : list SchemaHandler) (o : dict) :
  (forall h st V r V',
     In h hs -> can_handle h o = true -> P st V ->
     handle h o (fst st) V = Some (r, V') ->
     match r with
     | Returned j => P (j, snd st || Py.truthy (Py.get cyclic_flag j)) V'
     | Raised => P st V'
     end) ->
  forall st V st' V',
    P st V -> run_handlers hs o st V = Some (st', V') -> P st' V'.
Proof.
  induction hs as [|h rest IH]; simpl; intros Hstep st V st' V' HP Hrun.
  - by inv_ret Hrun.
  - assert (forall h' st V r V',
              In h' rest -> can_handle h' o = true -> P st V ->
              handle h' o (fst st) V = Some (r, V') ->
              match r with
              | Returned j => P (j, snd st || Py.truthy (Py.get cyclic_flag j)) V'
              | Raised => P st V'
              end) as Hrest by (intros; eapply Hstep; eauto).
    specialize (IH Hrest).
    destruct (can_handle h o) eqn:Hcan; [|eauto].
    inv_bind Hrun.
    pose proof (Hstep h st V a V0 (or_introl eq_refl) Hcan HP Hm) as HP'.
    destruct a; eauto.
Qed.

Section ConvertExtends.
Context {RT : PyRuntime}.
Variable full_spec : json.

Lemma convert_S n s :
  convert full_spec (S n) s =
  match s with
  | JDict o =>
      let* st := run_handlers (handlers full_spec (convert full_spec n)) o
                   (initial_schema o, false) in
      ret (finish st)
  | _ => ret []
  end.
Proof. reflexivity. Qed.

(** The visited set only grows: no call of [convert] removes a reference. *)
Lemma convert_extends n : extends (convert full_spec n).
Proof.
  induction n as [|n IH]; intros s V j V' H; [done|].
  rewrite convert_S in H.
  destruct s; try (by inv_ret H).
  inv_bind H. inv_ret H.
  revert Hm.
  apply (run_handlers_invariant (fun _ V1 => V ⊆ V1)); [|done].
  intros h st V1 r V2 Hin _ HV Hh.
  eapply handlers_extend in Hh; eauto.
  destruct r; set_solver.
Qed.

End ConvertExtends.

(** ** Descriptions of converted fragments *)

Section References.
Context {RT : PyRuntime}.
Variable full_spec : json.

Lemma startswith_unresolved ref :
  is_unresolved_desc ("Unresolved reference: " +:+ ref) = true.
Proof. reflexivity. Qed.

Lemma startswith_not_an_object ref :
  is_unresolved_desc ("Resolved reference is not an object: " +:+ ref) = true.
Proof. reflexivity. Qed.

Lemma startswith_cyclic s :
  is_recursive_error_desc ("Cyclic reference detected: " +:+ s) = true.
Proof. reflexivity. Qed.

Lemma get_description_dset_ne k v d :
  k <> "description" -> get_description (dset k v d) = get_description d.
Proof. intros. unfold get_description. by rewrite dget_dset_ne. Qed.

Lemma get_description_dset s d :
  get_description (dset "description" (JStr s) d) = Some s.
Proof. unfold get_description. by rewrite dget_dset_eq. Qed.

Lemma desc_ok_dupdate d d2 : desc_ok d -> desc_ok d2 -> desc_ok (dupdate d d2).
Proof.
  unfold desc_ok, get_description. intros [s Hs] [s2 Hs2].
  rewrite dget_dupdate. destruct (dget "description" d2) as [v|]; eauto.
Qed.

Lemma desc_ok_annotate o ref j : desc_ok j -> desc_ok (annotate o ref j).
Proof.
  unfold annotate. intros Hj. destruct (dhas "description" j); [done|].
  destruct (Py.truthy _); eexists; apply get_description_dset.
Qed.

Lemma reference_handle_desc_ok conv o j V j' V' :
  desc_ok j ->
  reference_handle full_spec conv o j V = Some (Returned j', V') -> desc_ok j'.
Proof.
  unfold reference_handle, cyclic_placeholder. intros Hj H.
  assert (forall k v d, k <> "description" -> desc_ok d -> desc_ok (dset k v d)) as Hset.
  { intros. unfold desc_ok. by rewrite get_description_dset_ne. }
  repeat (case_match; simplify_eq);
    repeat first [ apply desc_ok_annotate | apply desc_ok_dupdate
                 | apply Hset; [done|] | done | by eexists ].
Qed.
End References.

(** ** What each handler leaves alone *)

Ltac solve_ne := first [ done | congruence | (intros ?; subst; set_solver) ].

Ltac frame :=
  repeat first
    [ rewrite dget_dset_ne by solve_ne
    | rewrite dget_copy_key_ne by solve_ne
    | rewrite dget_copy_keys_ne by set_solver
    | rewrite dget_default_type_ne by solve_ne
    | rewrite dget_exclusive_bound_ne by solve_ne
    | rewrite dget_dpop_ne by solve_ne ];
  try done.

Section Frames.
Context {RT : PyRuntime}.
Implicit Types (conv : json -> M dict) (o j : dict) (k : string).

Lemma composition_list_frame conv key o j V j' V' k :
  k <> key -> composition_list conv key o j V = Some (j', V') -> dget k j' = dget k j.
Proof.
  unfold composition_list. intros Hk H.
  repeat case_match; try (by inv_ret H).
  all: inv_bind H; inv_ret H; by frame.
Qed.

Lemma composition_not_frame conv o j V j' V' k :
  k <> "not" -> composition_not conv o j V = Some (j', V') -> dget k j' = dget k j.
Proof.
  unfold composition_not. intros Hk H.
  repeat case_match; try (by inv_ret H).
  inv_bind H; inv_ret H; by frame.
Qed.

Lemma composition_handle_frame conv o j V j' V' k :
  k ∉ ["allOf"; "oneOf"; "anyOf"; "not"] ->
  composition_handle conv o j V = Some (Returned j', V') -> dget k j' = dget k j.
Proof.
  unfold composition_handle. intros Hk H.
  do 4 inv_bind H. inv_ret H.
  apply (composition_list_frame conv _ _ _ _ _ _ k) in Hm, Hm0, Hm1; [|set_solver..].
  apply (composition_not_frame conv _ _ _ _ _ k) in Hm2; [|set_solver].
  congruence.
Qed.

Lemma object_handle_frame conv o j V j' V' k :
  k ∉ ["type"; "properties"; "required"; "additionalProperties"] ->
  object_handle conv o j V = Some (Returned j', V') -> dget k j' = dget k j.
Proof.
  unfold object_handle. intros Hk H. inv_bind H.
  assert (dget k a = dget k j) as <-.
  { clear H. repeat case_match; try (inv_ret Hm; by frame).
    inv_bind Hm. inv_ret Hm. by frame. }
  clear Hm. repeat case_match; try (inv_ret H; by frame).
  inv_bind H. inv_ret H. by frame.
Qed.

Lemma array_handle_frame conv o j V j' V' k :
  k ∉ ["type"; "items"; "minItems"; "maxItems"; "uniqueItems"] ->
  array_handle conv o j V = Some (Returned j', V') -> dget k j' = dget k j.
Proof.
  unfold array_handle. intros Hk H. inv_bind H. inv_ret H. by frame.
Qed.

Lemma string_handle_frame o j k :
  k ∉ ["type"; "enum"; "format"; "pattern"; "minLength"; "maxLength"] ->
  dget k (string_handle o j) = dget k j.
Proof. unfold string_handle. intros Hk. repeat case_match; by frame. Qed.

Lemma number_handle_frame o j k :
  k ∉ ["type"; "format"; "minimum"; "maximum"; "multipleOf";
       "exclusiveMinimum"; "exclusiveMaximum"] ->
  dget k (number_handle o j) = dget k j.
Proof. unfold number_handle. intros Hk. by frame. Qed.

Lemma handle_nullable_frame o j k :
  k <> "type" -> dget k (handle_nullable o j) = dget k j.
Proof. unfold handle_nullable. intros Hk. repeat case_match; by frame. Qed.

Lemma copy_common_keyword_frame o j key k :
  k <> (if String.eqb key "example" then "examples" else key) ->
  dget k (copy_common_keyword o j key) = dget k j.
Proof. unfold copy_common_keyword. intros. repeat case_match; by frame. Qed.

Lemma common_handle_frame o j k :
  k ∉ ["description"; "title"; "default"; "examples"; "readOnly"; "writeOnly";
       "deprecated"; "type"] ->
  dget k (common_handle o j) = dget k j.
Proof.
  unfold common_handle, copy_common_keywords. intros Hk. simpl.
  rewrite handle_nullable_frame by solve_ne.
  repeat (rewrite copy_common_keyword_frame by (simpl; solve_ne)). done.
Qed.

Lemma finish_frame st k : k <> cyclic_flag -> dget k (finish st) = dget k (fst st).
Proof. unfold finish. intros. destruct (snd st); by frame. Qed.

End Frames.

Section ConvertFacts.
Context {RT : PyRuntime}.
Variable full_spec : json.

Lemma desc_ok_frame j j' :
  dget "description" j' = dget "description" j -> desc_ok j -> desc_ok j'.
Proof. unfold desc_ok, get_description. by intros ->. Qed.

Lemma dget_description_common o j :
  dget "description" (common_handle o j)
  = match dget "description" o with Some v => Some v | None => dget "description" j end.
Proof.
  unfold common_handle, copy_common_keywords. simpl.
  rewrite handle_nullable_frame by done.
  repeat (rewrite copy_common_keyword_frame by done).
  unfold copy_common_keyword. simpl.
  destruct (dget "description" o); [apply dget_dset_eq | done].
Qed.

Lemma handlers_desc_ok conv h o j V j' V' :
  In h (handlers full_spec conv) ->
  desc_ok o -> desc_ok j ->
  handle h o j V = Some (Returned j', V') -> desc_ok j'.
Proof.
  unfold handlers. simpl.
  intros [<-|[<-|[<-|[<-|[<-|[<-|[<-|[]]]]]]]] Ho Hj; simpl; intros H.
  - exact (reference_handle_desc_ok full_spec conv o j V j' V' Hj H).
  - apply (desc_ok_frame j); [|done].
    apply (composition_handle_frame conv o j V j' V'); [set_solver | done].
  - apply (desc_ok_frame j); [|done].
    apply (object_handle_frame conv o j V j' V'); [set_solver | done].
  - apply (desc_ok_frame j); [|done].
    apply (array_handle_frame conv o j V j' V'); [set_solver | done].
  - inv_ret H. apply (desc_ok_frame j); [|done]. apply string_handle_frame. set_solver.
  - inv_ret H. apply (desc_ok_frame j); [|done]. apply number_handle_frame. set_solver.
  - inv_ret H. unfold desc_ok, get_description in *.
    rewrite dget_description_common.
    destruct (dget "description" o); done.
Qed.

Lemma desc_ok_initial o : desc_ok (initial_schema o).
Proof.
  unfold initial_schema, desc_ok, get_description.
  destruct (Py.truthy _); simpl; eauto.
Qed.

(** A converted fragment has a string for its description, if its source has *)
Lemma convert_desc_ok n o V j V' :
  desc_ok o -> convert full_spec n (JDict o) V = Some (j, V') -> desc_ok j.
Proof.
  intros Ho H. destruct n; [done|]. rewrite convert_S in H.
  inv_bind H. inv_ret H.
  apply (desc_ok_frame (fst a)); [by apply finish_frame|].
  revert Hm.
  apply (run_handlers_invariant (fun st _ => desc_ok (fst st))); [|apply desc_ok_initial].
  intros h st V1 r V2 Hin _ Hst Hh.
  destruct r as [j1|]; [|done]. simpl.
  exact (handlers_desc_ok _ h o (fst st) V1 j1 V2 Hin Ho Hst Hh).
Qed.

(** A converted fragment carries the cyclic marker as [True] or as a value
    that is false. *)
Lemma convert_flag n s V j V' :
  convert full_spec n s V = Some (j, V') ->
  Py.truthy (Py.get cyclic_flag j) = true -> dget cyclic_flag j = Some (JBool true).
Proof.
  intros H. destruct n; [done|]. rewrite convert_S in H.
  destruct s; try (inv_ret H; done).
  inv_bind H. inv_ret H.
  assert (Py.truthy (Py.get cyclic_flag (fst a)) = true -> snd a = true) as Ha.
  { revert Hm.
    apply (run_handlers_invariant
             (fun st _ => Py.truthy (Py.get cyclic_flag (fst st)) = true -> snd st = true));
      [|simpl; unfold initial_schema; by destruct (Py.truthy (Py.or_else _ _))].
    intros h st V1 r V2 _ _ Hst _. destruct r; [|done]. simpl.
    intros ->. apply orb_true_r. }
  unfold finish. destruct (snd a); [intros _; apply dget_dset_eq|].
  intros Ht. by apply Ha in Ht.
Qed.

End ConvertFacts.

(** ** References *)

Section Reference.
Context {RT : PyRuntime}.
Variable full_spec : json.

Lemma resolve_ref_resolves p target :
  resolves_to full_spec p target -> resolve_ref full_spec p = target.
Proof. intros [Hs Ht]. unfold resolve_ref. by rewrite Hs, Ht. Qed.

Lemma run_handlers_cons h rest o st :
  run_handlers (h :: rest) o st
  = if can_handle h o then
      let* r := handle h o (fst st) in
      match r with
      | Returned j => run_handlers rest o (j, snd st || Py.truthy (Py.get cyclic_flag j))
      | Raised => run_handlers rest o st
      end
    else run_handlers rest o st.
Proof. reflexivity. Qed.

(** On a plain reference only the reference handler and the common handler
    apply, and the common handler finds nothing to copy. *)
Lemma run_plain_ref_rest conv p st V :
  run_handlers (tl (handlers full_spec conv)) [("$ref", JStr p)] st V
  = Some ((fst st, snd st || Py.truthy (Py.get cyclic_flag (fst st))), V).
Proof. destruct st. reflexivity. Qed.

Lemma convert_plain_ref n p V :
  convert full_spec (S n) (plain_ref p) V
  = match reference_handle full_spec (convert full_spec n) [("$ref", JStr p)] [] V with
    | Some (Returned j, V') =>
        Some (if Py.truthy (Py.get cyclic_flag j)
              then dset cyclic_flag (JBool true) j else j, V')
    | Some (Raised, V') => Some ([], V')
    | None => None
    end.
Proof.
  unfold plain_ref. rewrite convert_S. unfold bind at 1.
  change (handlers full_spec (convert full_spec n))
    with (ReferenceHandler full_spec (convert full_spec n)
          :: tl (handlers full_spec (convert full_spec n))).
  rewrite run_handlers_cons.
  change (can_handle (ReferenceHandler full_spec (convert full_spec n))
            [("$ref", JStr p)]) with true.
  cbv iota. unfold bind at 1.
  change (handle (ReferenceHandler full_spec (convert full_spec n)))
    with (reference_handle full_spec (convert full_spec n)).
  change (fst (initial_schema [("$ref", JStr p)], false)) with ([] : dict).
  destruct (reference_handle _ _ _ _ _) as [[[j|] V']|]; [| |done].
  - rewrite run_plain_ref_rest. unfold ret, finish. simpl.
    rewrite orb_diag. done.
  - rewrite run_plain_ref_rest. reflexivity.
Qed.

Lemma dget_singleton_flag k (d : dict) :
  flag_is_true d = true ->
  match dget k d with Some v => Some v | None => dget k [(cyclic_flag, JBool true)] end
  = dget k d.
Proof.
  unfold flag_is_true. intros Hf. destruct (dget k d) eqn:E; [done|].
  cbn [dget]. destruct (String.eqb cyclic_flag k) eqn:Ek; [|done].
  apply String.eqb_eq in Ek. subst k. by rewrite E in Hf.
Qed.

Lemma dget_with_provenance k p (d1 d2 : dict) :
  (forall k, dget k d1 = dget k d2) ->
  dget k (with_provenance p d1) = dget k (with_provenance p d2).
Proof.
  intros Heq. unfold with_provenance, dhas. rewrite (Heq "description").
  destruct (dget "description" d2); [apply Heq|]. by rewrite !dget_dset, Heq.
Qed.

Lemma recursive_error_has_description (d : dict) rdesc :
  get_description d = Some rdesc -> is_recursive_error_desc rdesc = true ->
  dhas "description" d = true.
Proof.
  unfold get_description, dhas. destruct (dget "description" d) as [[]|]; try done.
  intros [= <-]. done.
Qed.

(** Converting [{$ref: p}] for a [p] that was not visited and that resolves
    to a map with a usable description: the result of converting the target
    with [p] marked visited, with the provenance note if it has no
    description. *)
Lemma convert_plain_ref_fresh (p : string) (target : dict) (desc : string)
    (n : nat) (V : visited) :
  resolves_to full_spec p target ->
  HStr p ∉ V ->
  get_description target = Some desc ->
  is_unresolved_desc desc = false ->
  match convert full_spec n (JDict target) (V ∪ {[HStr p]}) with
  | Some (result, V') =>
      exists out,
        convert full_spec (S n) (plain_ref p) V = Some (out, V')
        /\ forall k, dget k out = dget k (with_provenance p result)
  | None => convert full_spec (S n) (plain_ref p) V = None
  end.
Proof.
  intros Hres Hfresh Hdesc Hun.
  rewrite convert_plain_ref. unfold reference_handle.
  cbn [dget String.eqb Ascii.eqb Bool.eqb Hash.hash_key].
  destruct (decide (HStr p ∈ V)) as [|_]; [done|].
  rewrite (resolve_ref_resolves p target Hres), Hdesc, Hun.
  destruct (convert full_spec n (JDict target) (V ∪ {[HStr p]}))
    as [[result V']|] eqn:Hconv; [|done].
  destruct (convert_desc_ok full_spec n target _ result V'
              (ex_intro _ desc Hdesc) Hconv) as [rdesc Hrdesc].
  rewrite Hrdesc.
  pose proof (convert_flag full_spec n _ _ result V' Hconv) as Hflag.
  set (j1 := if flag_is_true result then dset cyclic_flag (JBool true) [] else []).
  assert (forall k, dget k (dupdate j1 result) = dget k result) as Hupd.
  { intros k. rewrite dget_dupdate. subst j1.
    destruct (flag_is_true result) eqn:Hf; [by apply dget_singleton_flag|].
    by destruct (dget k result). }
  assert (forall j, (forall k, dget k j = dget k (with_provenance p result)) ->
            forall k, dget k (if Py.truthy (Py.get cyclic_flag j)
                              then dset cyclic_flag (JBool true) j else j)
                      = dget k (with_provenance p result)) as Hfin.
  { intros j Hj k. destruct (Py.truthy (Py.get cyclic_flag j)) eqn:Ht; [|done].
    rewrite dget_dset. destruct (String.eqb cyclic_flag k) eqn:Ek; [|done].
    apply String.eqb_eq in Ek. subst k. rewrite <- Hj.
    assert (dget cyclic_flag j = dget cyclic_flag result) as Hjr.
    { rewrite Hj. unfold with_provenance. destruct (dhas _ _); [done|].
      by rewrite dget_dset_ne. }
    unfold Py.get, dget_default in Ht, Hflag. rewrite Hjr in *.
    symmetry. by apply Hflag. }
  destruct (is_recursive_error_desc rdesc) eqn:Hrec.
  - eexists. split; [reflexivity|]. apply Hfin. intros k. rewrite Hupd.
    unfold with_provenance.
    by rewrite (recursive_error_has_description result rdesc).
  - eexists. split; [reflexivity|]. apply Hfin. intros k.
    change (annotate [("$ref", JStr p)] p (dupdate j1 result))
      with (with_provenance p (dupdate j1 result)).
    by apply dget_with_provenance.
Qed.

(** C2 (as amended): for a path [p] that starts with [#/], resolves to a map
    whose description is absent or a string that is not an
    unresolved-reference placeholder, and was not visited, converting
    [{$ref: p}] gives what converting the target gives on the same converter
    once [p] is marked visited, with the description ["(from ref: p)"] added
    if and only if that result has no description of its own. *)
Theorem convert_reference (p : string) (target : dict) (desc : string)
    (n : nat) (V : visited) :
  resolves_to full_spec p target ->
  HStr p ∉ V ->
  get_description target = Some desc ->
  is_unresolved_desc desc = false ->
  match convert full_spec n (JDict target) (V ∪ {[HStr p]}) with
  | Some (result, V') =>
      exists out,
        convert full_spec (S n) (plain_ref p) V = Some (out, V')
        /\ (forall k, dget k out = dget k (with_provenance p result))
        /\ (dhas "description" result = true -> forall k, dget k out = dget k result)
        /\ (dhas "description" result = false ->
            dget "description" out = Some (JStr ("(from ref: " +:+ p +:+ ")"))
            /\ forall k, k <> "description" -> dget k out = dget k result)
  | None => convert full_spec (S n) (plain_ref p) V = None
  end.
Proof.
  intros Hres Hfresh Hdesc Hun.
  pose proof (convert_plain_ref_fresh p target desc n V Hres Hfresh Hdesc Hun) as H.
  destruct (convert full_spec n (JDict target) (V ∪ {[HStr p]})) as [[result V']|];
    [|done].
  destruct H as (out & Hout & Hk). exists out. split; [done|]. split; [done|].
  unfold with_provenance in Hk. split.
  - intros Hd. by rewrite Hd in Hk.
  - intros Hd. rewrite Hd in Hk. split.
    + rewrite Hk. apply dget_dset_eq.
    + intros k Hne. rewrite Hk. by apply dget_dset_ne.
Qed.

End Reference.


Lemma convert_reference_witness :
  exists out V',
    convert (RT := StdRuntime.runtime) pet_spec 2 (plain_ref "#/components/schemas/Id") ∅ = Some (out, V')
    /\ forall k, dget k out
         = dget k [("type", JStr "integer");
                   ("description", JStr "(from ref: #/components/schemas/Id)")].
Proof.
  pose proof (convert_reference (RT := StdRuntime.runtime) pet_spec "#/components/schemas/Id"
                [("type", JStr "integer")] "" 1 ∅
                (conj eq_refl eq_refl) (not_elem_of_empty _) eq_refl eq_refl) as H.
  vm_compute (convert pet_spec 1 _ _) in H.
  destruct H as (out & H1 & H2 & _). eauto.
Defined.

Lemma fmap_fst_Some {A B} (x : option (A * B)) (a : A) (R : Prop) :
  fst <$> x = Some a /\ R -> exists b, x = Some (a, b) /\ R.
Proof. destruct x as [[a' b]|]; intros [[= <-] HR]; eauto. Qed.

Lemma length_append (a b : string) :
  String.length (a +:+ b) = String.length a + String.length b.
Proof.
  induction a as [|c a IH]; [done|].
  change (S (String.length (a +:+ b)) = S (String.length a + String.length b)).
  by rewrite IH.
Qed.

(** C2, as stated, fails for a target that has a description of its own:
    the description is kept as it is, no provenance note is added. *)
Lemma convert_reference_keeps_description :
  let p := "#/components/schemas/Pet" in
  exists V',
    convert (RT := StdRuntime.runtime) pet_spec 2 (plain_ref p) ∅
    = Some ([("type", JStr "string"); ("description", JStr "A pet")], V')
    /\ "A pet" <> "(from ref: " +:+ p +:+ ")"
    /\ ~ (exists original, "A pet" = original +:+ " (from ref: " +:+ p +:+ ")").
Proof.
  intros p. apply fmap_fst_Some. split; [vm_compute; reflexivity|]. split; [done|].
  intros (original & H). apply (f_equal String.length) in H.
  rewrite length_append in H. simpl in H. lia.
Qed.

(** ** The visited-reference set *)

Section VisitedSet.
Context {RT : PyRuntime}.
Variable full_spec : json.

(** The reference handler marks its reference visited, whatever comes of
    resolving it. *)
Lemma reference_handle_adds conv o j V r V1 ref hk :
  extends conv ->
  dget "$ref" o = Some ref -> Hash.hash_key ref = Some hk ->
  reference_handle full_spec conv o j V = Some (r, V1) -> hk ∈ V1.
Proof.
  intros Hext Ho Hk. unfold reference_handle. rewrite Ho, Hk. intros H.
  repeat (case_match; simplify_eq; try set_solver).
  all: match goal with Hc : _ = Some (_, _) |- _ => apply Hext in Hc end.
  all: set_solver.
Qed.

(** A visited reference is not resolved again: the handler writes the
    placeholder and does not call the converter. *)
Lemma reference_handle_visited conv o j V ref hk :
  dget "$ref" o = Some ref -> Hash.hash_key ref = Some hk -> hk ∈ V ->
  reference_handle full_spec conv o j V
  = Some (Returned (cyclic_placeholder ref j), V).
Proof.
  intros Ho Hk Hin. unfold reference_handle. rewrite Ho, Hk.
  by destruct (decide (hk ∈ V)).
Qed.

Lemma convert_adds n o V j V' ref hk :
  dget "$ref" o = Some ref -> Hash.hash_key ref = Some hk ->
  convert full_spec n (JDict o) V = Some (j, V') -> hk ∈ V'.
Proof.
  intros Ho Hk H. destruct n; [done|]. rewrite convert_S in H.
  apply bind_Some in H as (st & V2 & Hrun & Hret).
  apply ret_Some in Hret as [-> ->].
  change (handlers full_spec (convert full_spec n))
    with (ReferenceHandler full_spec (convert full_spec n)
          :: tl (handlers full_spec (convert full_spec n))) in Hrun.
  rewrite run_handlers_cons in Hrun.
  change (can_handle (ReferenceHandler full_spec (convert full_spec n)) o)
    with (dhas "$ref" o) in Hrun.
  unfold dhas in Hrun. rewrite Ho in Hrun.
  apply bind_Some in Hrun as (r & V1 & Href & Hrest).
  apply (reference_handle_adds _ _ _ _ _ _ ref hk) in Href;
    [|apply convert_extends|done..].
  assert (forall st1, run_handlers (tl (handlers full_spec (convert full_spec n))) o st1 V1
                      = Some (st, V2) -> V1 ⊆ V2) as Hmono.
  { intros st1. apply (run_handlers_invariant (fun _ V3 => V1 ⊆ V3)); [|done].
    intros h st0 V3 r0 V4 Hin _ HV Hh.
    apply (handlers_extend full_spec (convert full_spec n)) in Hh;
      [|apply convert_extends|by right].
    clear -HV Hh. destruct r0; set_solver. }
  destruct r; apply Hmono in Hrest; clear -Href Hrest; set_solver.
Qed.

Lemma convert_plain_ref_visited n p V :
  HStr p ∈ V ->
  convert full_spec (S n) (plain_ref p) V = Some (cyclic_marker p, V).
Proof.
  intros Hin. rewrite convert_plain_ref.
  rewrite (reference_handle_visited _ _ _ _ (JStr p) (HStr p)) by done.
  reflexivity.
Qed.

Lemma run_diamond conv a b p V :
  run_handlers (handlers full_spec conv) (diamond a b p)
    (initial_schema (diamond a b p), false) V
  = match object_handle conv (diamond a b p) [("type", JStr "object")] V with
    | Some (Returned j, V') =>
        Some ((common_handle (diamond a b p) j,
               Py.truthy (Py.get cyclic_flag j)
               || Py.truthy (Py.get cyclic_flag (common_handle (diamond a b p) j))), V')
    | Some (Raised, V') =>
        Some ((common_handle (diamond a b p) [("type", JStr "object")],
               Py.truthy (Py.get cyclic_flag
                            (common_handle (diamond a b p) [("type", JStr "object")]))), V')
    | None => None
    end.
Proof.
  change (run_handlers (handlers full_spec conv) (diamond a b p)
            (initial_schema (diamond a b p), false) V)
    with ((let* r := object_handle conv (diamond a b p) [("type", JStr "object")] in
           match r with
           | Returned j =>
               run_handlers [CommonSchemaHandler] (diamond a b p)
                 (j, false || Py.truthy (Py.get cyclic_flag j))
           | Raised =>
               run_handlers [CommonSchemaHandler] (diamond a b p)
                 ([("type", JStr "object")], false)
           end) V).
  unfold bind at 1.
  destruct (object_handle conv (diamond a b p) [("type", JStr "object")] V)
    as [[[j|] V']|]; reflexivity.
Qed.

(** The second arm of a diamond is flagged as cyclic, although the reference
    graph has no cycle. *)
Lemma convert_diamond n a b p V j1 V1 :
  a <> b ->
  convert full_spec (S n) (plain_ref p) V = Some (j1, V1) ->
  convert full_spec (S (S n)) (JDict (diamond a b p)) V
  = Some ([("type", JStr "object");
           ("properties", JDict [(a, JDict j1); (b, JDict (cyclic_marker p))]);
           ("required", JList [])], V1).
Proof.
  intros Hab H1.
  assert (HStr p ∈ V1) as Hin by (eapply (convert_adds (S n)); [| |exact H1]; done).
  pose proof (convert_plain_ref_visited n p V1 Hin) as H2.
  rewrite convert_S. unfold bind at 1. rewrite run_diamond.
  unfold object_handle.
  cbn [diamond dget String.eqb Ascii.eqb Bool.eqb Py.get dget_default].
  assert (ditems [(a, plain_ref p); (b, plain_ref p)]
          = [(a, plain_ref p); (b, plain_ref p)]) as ->.
  { simpl. unfold dpop. simpl.
    destruct (String.eqb b a) eqn:E; [|done].
    apply String.eqb_eq in E. congruence. }
  assert (dset b (JDict (cyclic_marker p)) (dset a (JDict j1) [])
          = [(a, JDict j1); (b, JDict (cyclic_marker p))]) as Hprops.
  { simpl. destruct (String.eqb a b) eqn:E; [|done].
    apply String.eqb_eq in E. congruence. }
  cbn [convert_properties]. unfold bind. rewrite H1, H2. unfold ret.
  rewrite Hprops. reflexivity.
Qed.

(** The converter is only called on the target with the reference already
    marked visited. *)
Lemma reference_handle_calls_after_add conv conv' o j V ref hk :
  dget "$ref" o = Some ref -> Hash.hash_key ref = Some hk ->
  (forall s V1, hk ∈ V1 -> conv s V1 = conv' s V1) ->
  reference_handle full_spec conv o j V = reference_handle full_spec conv' o j V.
Proof.
  intros Ho Hk Hagree. unfold reference_handle. rewrite Ho, Hk.
  destruct (decide (hk ∈ V)); [done|].
  destruct ref; try done.
  destruct (get_description _); [|done].
  destruct (is_unresolved_desc _); [done|].
  rewrite Hagree by set_solver. done.
Qed.

End VisitedSet.

(** C4: the visited set of a converter only grows; a reference is in it from
    the moment its handler runs, before the target is converted and whatever
    comes of resolving it; and once it is there every later encounter of the
    reference on that converter gets the cyclic placeholder instead of a new
    resolution, the second arm of a diamond included. *)
Theorem visited_set_invariant {RT : PyRuntime} (full_spec : json) :
  (forall n s V j V', convert full_spec n s V = Some (j, V') -> V ⊆ V')
  /\ (forall n o V j V' ref hk,
        dget "$ref" o = Some ref -> Hash.hash_key ref = Some hk ->
        convert full_spec n (JDict o) V = Some (j, V') -> hk ∈ V')
  /\ (forall conv conv' o j V ref hk,
        dget "$ref" o = Some ref -> Hash.hash_key ref = Some hk ->
        (forall s V1, hk ∈ V1 -> conv s V1 = conv' s V1) ->
        reference_handle full_spec conv o j V = reference_handle full_spec conv' o j V)
  /\ (forall conv o j V ref hk,
        dget "$ref" o = Some ref -> Hash.hash_key ref = Some hk -> hk ∈ V ->
        reference_handle full_spec conv o j V
        = Some (Returned (cyclic_placeholder ref j), V))
  /\ (forall n p V,
        HStr p ∈ V ->
        convert full_spec (S n) (plain_ref p) V = Some (cyclic_marker p, V))
  /\ (forall n p V j1 V1,
        convert full_spec (S n) (plain_ref p) V = Some (j1, V1) ->
        convert full_spec (S n) (plain_ref p) V1 = Some (cyclic_marker p, V1))
  /\ (forall n a b p V j1 V1,
        a <> b ->
        convert full_spec (S n) (plain_ref p) V = Some (j1, V1) ->
        convert full_spec (S (S n)) (JDict (diamond a b p)) V
        = Some ([("type", JStr "object");
                 ("properties", JDict [(a, JDict j1); (b, JDict (cyclic_marker p))]);
                 ("required", JList [])], V1)).
Proof.
  repeat split.
  - intros n s V j V'. apply convert_extends.
  - intros n o V j V' ref hk. apply convert_adds.
  - intros conv conv' o j V ref hk. apply reference_handle_calls_after_add.
  - intros conv o j V ref hk. apply reference_handle_visited.
  - intros n p V. apply convert_plain_ref_visited.
  - intros n p V j1 V1 H. apply convert_plain_ref_visited.
    by apply (convert_adds full_spec (S n) [("$ref", JStr p)] V j1 V1 (JStr p)).
  - intros n a b p V j1 V1. apply convert_diamond.
Qed.

(** ** Termination of the conversion *)

Section Sizes.

Lemma json_size_pos v : 1 <= json_size v.
Proof. destruct v; simpl; lia. Qed.

Lemma list_sum_In (f : json -> nat) l v : In v l -> f v <= list_sum (map f l).
Proof.
  induction l as [|x r IH]; simpl; [done|].
  intros [->|H]; [lia|]. apply IH in H. lia.
Qed.

Lemma json_size_In v l : In v l -> json_size v < json_size (JList l).
Proof. intros H. apply (list_sum_In json_size) in H. simpl. lia. Qed.

Lemma json_size_entry k v (d : dict) : In (k, v) d -> json_size v < json_size (JDict d).
Proof.
  intros H. simpl. apply Nat.lt_succ_r.
  induction d as [|[k' v'] r IH]; simpl in *; [done|].
  destruct H as [[= -> ->]|H]; [lia|]. apply IH in H. lia.
Qed.

Lemma dget_In k (d : dict) v : dget k d = Some v -> exists k', In (k', v) d.
Proof.
  induction d as [|[k' v'] r IH]; simpl; [done|].
  destruct (String.eqb k' k); [intros [= ->]; eauto|].
  intros H. apply IH in H as [k0 H]. eauto.
Qed.

Lemma json_size_dget k (d : dict) v : dget k d = Some v -> json_size v < json_size (JDict d).
Proof. intros H. apply dget_In in H as [k' H]. eauto using json_size_entry. Qed.

Lemma all_strs_In v l s : In v l -> In s (all_strs v) -> In s (all_strs (JList l)).
Proof.
  intros Hv Hs. simpl. apply in_concat. exists (all_strs v). split; [|done].
  by apply in_map.
Qed.

Lemma all_strs_entry k v (d : dict) s :
  In (k, v) d -> In s (all_strs v) -> In s (all_strs (JDict d)).
Proof.
  intros Hv Hs. simpl. apply in_concat. exists (all_strs v). split; [|done].
  apply in_map_iff. by exists (k, v).
Qed.

End Sizes.

Section Covers.
Variable U : gset hkey.

Lemma covers_In v l : covers U (JList l) -> In v l -> covers U v.
Proof. intros H Hv s Hs. eauto using all_strs_In. Qed.

Lemma covers_entry k v (d : dict) : covers U (JDict d) -> In (k, v) d -> covers U v.
Proof. intros H Hv s Hs. eauto using all_strs_entry. Qed.

Lemma covers_dget k (d : dict) v : covers U (JDict d) -> dget k d = Some v -> covers U v.
Proof. intros H Hv. apply dget_In in Hv as [k' Hv]. eauto using covers_entry. Qed.

Lemma covers_str s : covers U (JStr s) -> HStr s ∈ U.
Proof. intros H. apply H. simpl. auto. Qed.

Lemma covers_empty_dict : covers U (JDict []).
Proof. intros s []. Qed.

End Covers.

Section Traverse.
Context {RT : PyRuntime}.
Variable U : gset hkey.

Lemma index_In l i v : Py.index l i = Some v -> In v l.
Proof.
  unfold Py.index. intros H.
  repeat case_match; simplify_eq; eauto using nth_error_In.
Qed.

Lemma traverse_sub parts : forall current v,
  traverse parts current = Some v ->
  json_size v <= json_size current /\ (covers U current -> covers U v).
Proof.
  induction parts as [|part rest IH]; simpl; intros current v H.
  - by simplify_eq.
  - destruct current; try done.
    + destruct (int_of_str _) as [i|]; [|done].
      destruct (Py.index l i) as [x|] eqn:Hx; [|done].
      apply index_In in Hx. apply IH in H as [Hsz Hc].
      pose proof (json_size_In x l Hx). split; [lia|].
      eauto using covers_In.
    + destruct (dget _ d) as [x|] eqn:Hx; [|done].
      apply IH in H as [Hsz Hc].
      pose proof (json_size_dget _ d x Hx). split; [lia|].
      eauto using covers_dget.
Qed.

(** A reference resolves to a placeholder or to a part of the document. *)
Lemma resolve_ref_cases full_spec ref :
  (exists desc, get_description (resolve_ref full_spec ref) = Some desc
                /\ is_unresolved_desc desc = true)
  \/ (json_size (JDict (resolve_ref full_spec ref)) <= json_size full_spec
      /\ (covers U full_spec -> covers U (JDict (resolve_ref full_spec ref)))).
Proof.
  unfold resolve_ref.
  destruct (negb _); [left; eexists; split; reflexivity|].
  destruct (traverse _ _) as [v|] eqn:Ht; [|left; eexists; split; reflexivity].
  destruct v; try (left; eexists; split; reflexivity).
  right. by apply traverse_sub in Ht.
Qed.

End Traverse.

Section Total.
Context {RT : PyRuntime}.
Variable full_spec : json.
Variable U : gset hkey.
Hypothesis U_spec : covers U full_spec.

Lemma budget_mono k V V' : V ⊆ V' -> budget U k V -> budget U k V'.
Proof.
  unfold budget. intros Hsub Hk.
  assert (U ∖ V' ⊆ U ∖ V) as Hs by set_solver.
  apply subseteq_size in Hs. lia.
Qed.

Lemma budget_add k V x : x ∈ U -> x ∉ V -> budget U k V -> exists k', k' < k /\ budget U k' (V ∪ {[x]}).
Proof.
  unfold budget. intros HU HV Hk.
  exists (size (U ∖ (V ∪ {[x]}))). split; [|done].
  assert (U ∖ (V ∪ {[x]}) ⊂ U ∖ V) as Hs by set_solver.
  apply subset_size in Hs. lia.
Qed.

Lemma total_on_weaken conv k sz sz' : sz' <= sz -> total_on U conv k sz -> total_on U conv k sz'.
Proof. intros Hle H s V Hc Hs Hb. apply H; [done|lia|done]. Qed.

Section HandlersTotal.
Variable conv : json -> M dict.
Variables k sz : nat.
Hypothesis conv_extends : extends conv.
Hypothesis conv_total : total_on U conv k sz.
Hypothesis conv_jump : forall k', k' < k -> total_on U conv k' (json_size full_spec).

Lemma mapM_total l V :
  (forall x, In x l -> covers U x /\ json_size x <= sz) -> budget U k V ->
  exists js V', mapM conv l V = Some (js, V').
Proof.
  revert V. induction l as [|x r IH]; simpl; intros V Hl Hb; [by eexists _, _|].
  destruct (Hl x) as [Hc Hs]; [by left|].
  destruct (conv_total x V Hc Hs Hb) as (y & V1 & Hy).
  destruct (IH V1) as (ys & V2 & Hys);
    [intros; apply Hl; by right | eauto using budget_mono |].
  unfold bind. rewrite Hy, Hys. by eexists _, _.
Qed.

Lemma convert_properties_total items acc V :
  (forall name x, In (name, x) items -> covers U x /\ json_size x <= sz) -> budget U k V ->
  exists props V', convert_properties conv items acc V = Some (props, V').
Proof.
  revert acc V. induction items as [|[name x] r IH]; simpl; intros acc V Hl Hb;
    [by eexists _, _|].
  destruct (Hl name x) as [Hc Hs]; [by left|].
  destruct (conv_total x V Hc Hs Hb) as (y & V1 & Hy).
  unfold bind. rewrite Hy. apply IH; [|eauto using budget_mono].
  intros; eapply Hl; by right.
Qed.

Variable o : dict.
Hypothesis o_covered : covers U (JDict o).
Hypothesis o_size : json_size (JDict o) <= S sz.

Lemma sub_value key v : dget key o = Some v -> covers U v /\ json_size v <= sz.
Proof.
  intros H. split; [eauto using covers_dget|].
  apply json_size_dget in H. lia.
Qed.

Lemma composition_list_total key j V :
  budget U k V -> exists j' V', composition_list conv key o j V = Some (j', V').
Proof.
  intros Hb. unfold composition_list, Py.get, dget_default.
  destruct (dget key o) as [v|] eqn:Hv; [|by eexists _, _].
  destruct v; try by eexists _, _.
  destruct (dicts_of l) as [|x r] eqn:Hd; [by eexists _, _|].
  destruct (mapM_total (x :: r) V) as (js & V' & Hjs); [|done|].
  - intros y Hy. rewrite <- Hd in Hy. apply filter_In in Hy as [Hy _].
    apply sub_value in Hv as [Hc Hs]. split; [eauto using covers_In|].
    apply json_size_In in Hy. lia.
  - unfold bind. rewrite Hjs. by eexists _, _.
Qed.

Lemma composition_not_total j V :
  budget U k V -> exists j' V', composition_not conv o j V = Some (j', V').
Proof.
  intros Hb. unfold composition_not, Py.get, dget_default.
  destruct (dget "not" o) as [v|] eqn:Hv; [|by eexists _, _].
  destruct v; try by eexists _, _.
  apply sub_value in Hv as [Hc Hs].
  destruct (conv_total _ V Hc Hs Hb) as (y & V1 & Hy).
  unfold bind. rewrite Hy. by eexists _, _.
Qed.

Lemma composition_handle_total j V :
  budget U k V -> exists r V', composition_handle conv o j V = Some (r, V').
Proof.
  intros Hb. unfold composition_handle, bind.
  destruct (composition_list_total "allOf" j V Hb) as (j1 & V1 & H1). rewrite H1.
  apply composition_list_extends in H1; [|done].
  destruct (composition_list_total "oneOf" j1 V1) as (j2 & V2 & H2);
    [eauto using budget_mono|]. rewrite H2.
  apply composition_list_extends in H2; [|done].
  destruct (composition_list_total "anyOf" j2 V2) as (j3 & V3 & H3);
    [eauto using budget_mono|]. rewrite H3.
  apply composition_list_extends in H3; [|done].
  destruct (composition_not_total j3 V3) as (j4 & V4 & H4);
    [eauto using budget_mono|]. rewrite H4.
  by eexists _, _.
Qed.

Lemma object_handle_total j V :
  budget U k V -> exists r V', object_handle conv o j V = Some (r, V').
Proof.
  intros Hb. unfold object_handle.
  set (j0 := dset "required" _ _).
  assert (exists j1 V1,
            match dget "properties" o with
            | Some (JDict items) =>
                let* properties := convert_properties conv (ditems items) [] in
                ret (dset "properties" (JDict properties) j0)
            | _ => ret j0
            end V = Some (j1, V1) /\ V ⊆ V1) as (j1 & V1 & H1 & Hsub).
  { destruct (dget "properties" o) as [v|] eqn:Hv; [|by eexists _, _].
    destruct v; try by eexists _, _.
    apply sub_value in Hv as [Hc Hs].
    destruct (convert_properties_total (ditems d) [] V) as (props & V1 & Hp); [|done|].
    - intros name x Hx. apply In_ditems in Hx.
      split; [eauto using covers_entry|]. apply json_size_entry in Hx. lia.
    - unfold bind. rewrite Hp. eexists _, _. split; [done|].
      by apply convert_properties_extends in Hp. }
  unfold bind at 1. rewrite H1.
  unfold Py.get, dget_default.
  destruct (dget "additionalProperties" o) as [v|] eqn:Hv; [|by eexists _, _].
  destruct v; try by eexists _, _.
  apply sub_value in Hv as [Hc Hs].
  destruct (conv_total _ V1 Hc Hs) as (y & V2 & Hy); [eauto using budget_mono|].
  unfold bind. rewrite Hy. by eexists _, _.
Qed.

Lemma array_handle_total j V :
  1 <= sz -> budget U k V -> exists r V', array_handle conv o j V = Some (r, V').
Proof.
  intros Hsz Hb. unfold array_handle, bind.
  assert (covers U (dget_default "items" (JDict []) o)
          /\ json_size (dget_default "items" (JDict []) o) <= sz) as [Hc Hs].
  { unfold dget_default. destruct (dget "items" o) eqn:Hv; [by apply (sub_value "items")|].
    split; [apply covers_empty_dict | simpl; lia]. }
  destruct (conv_total _ V Hc Hs Hb) as (y & V1 & Hy). rewrite Hy.
  by eexists _, _.
Qed.

Lemma reference_handle_total j V :
  budget U k V -> exists r V', reference_handle full_spec conv o j V = Some (r, V').
Proof.
  intros Hb. unfold reference_handle.
  destruct (dget "$ref" o) as [ref_path|] eqn:Hr; [|by eexists _, _].
  destruct (Hash.hash_key ref_path) as [hk|] eqn:Hk; [|by eexists _, _].
  destruct (decide (hk ∈ V)); [by eexists _, _|].
  destruct ref_path; try by eexists _, _.
  simpl in Hk. simplify_eq.
  destruct (get_description (resolve_ref full_spec s)) as [desc|] eqn:Hd;
    [|by eexists _, _].
  destruct (is_unresolved_desc desc) eqn:Hu; [by eexists _, _|].
  destruct (resolve_ref_cases U full_spec s) as [(desc' & Hd' & Hu')|[Hs Hc]];
    [congruence|].
  destruct (budget_add k V (HStr s)) as (k' & Hlt & Hb'); [|done|done|].
  { apply covers_str. eauto using covers_dget. }
  destruct (conv_jump k' Hlt _ _ (Hc U_spec) Hs Hb') as (result & V1 & Hres).
  rewrite Hres. repeat case_match; by eexists _, _.
Qed.

End HandlersTotal.
End Total.

Section ConvertTotal.
Context {RT : PyRuntime}.
Variable full_spec : json.
Variable U : gset hkey.
Hypothesis U_spec : covers U full_spec.

Lemma run_handlers_total k hs o :
  (forall h, In h hs -> can_handle h o = true ->
     forall j V, budget U k V ->
       exists r V', handle h o j V = Some (r, V') /\ budget U k V') ->
  forall st V, budget U k V -> exists st' V', run_handlers hs o st V = Some (st', V').
Proof.
  induction hs as [|h rest IH]; intros Hh st V Hb; [by eexists _, _|].
  rewrite run_handlers_cons.
  assert (forall st V, budget U k V ->
            exists st' V', run_handlers rest o st V = Some (st', V')) as Hrest.
  { apply IH. intros h' Hin. apply Hh. by right. }
  destruct (can_handle h o) eqn:Hcan; [|by apply Hrest].
  destruct (Hh h (or_introl eq_refl) Hcan (fst st) V Hb) as (r & V1 & Hr & Hb1).
  unfold bind. rewrite Hr. destruct r; by apply Hrest.
Qed.

Lemma can_handle_array_nonempty conv o :
  can_handle (ArraySchemaHandler conv) o = true -> 2 <= json_size (JDict o).
Proof.
  destruct o as [|[k v] r]; [done|]. intros _. simpl.
  pose proof (json_size_pos v). lia.
Qed.

Lemma handlers_total conv k sz o h :
  extends conv ->
  total_on U conv k sz ->
  (forall k', k' < k -> total_on U conv k' (json_size full_spec)) ->
  covers U (JDict o) -> json_size (JDict o) <= S sz ->
  In h (handlers full_spec conv) -> can_handle h o = true ->
  forall j V, budget U k V ->
    exists r V', handle h o j V = Some (r, V') /\ budget U k V'.
Proof.
  intros Hext Htot Hjump Hc Hs Hin Hcan j V Hb.
  assert (exists r V', handle h o j V = Some (r, V')) as (r & V' & Hr).
  { revert Hin Hcan. unfold handlers. simpl.
    intros [<-|[<-|[<-|[<-|[<-|[<-|[<-|[]]]]]]]] Hcan; simpl.
    - eapply reference_handle_total; eauto.
    - eapply composition_handle_total; eauto.
    - eapply object_handle_total; eauto.
    - eapply array_handle_total; eauto.
      apply can_handle_array_nonempty in Hcan. lia.
    - by eexists _, _.
    - by eexists _, _.
    - by eexists _, _. }
  exists r, V'. split; [done|].
  apply (handlers_extend full_spec conv Hext h o j V r V' Hin) in Hr.
  eauto using budget_mono.
Qed.

Lemma convert_total_on k : forall sz n,
  sz + k * S (json_size full_spec) <= n -> total_on U (convert full_spec n) k sz.
Proof.
  induction k as [k IHk] using lt_wf_ind.
  induction sz as [|sz IHsz]; intros n Hn s V Hc Hs Hb.
  - pose proof (json_size_pos s). lia.
  - destruct n as [|n]; [lia|]. rewrite convert_S.
    destruct s; try by eexists _, _.
    destruct (run_handlers_total k (handlers full_spec (convert full_spec n)) d)
      with (st := (initial_schema d, false)) (V := V) as (st' & V' & Hrun); [|done|].
    + intros h Hin Hcan.
      apply (handlers_total (convert full_spec n) k sz); try done.
      * apply convert_extends.
      * apply IHsz. lia.
      * intros k' Hlt. apply IHk; [done|]. nia.
    + unfold bind. rewrite Hrun. by eexists _, _.
Qed.

End ConvertTotal.

Lemma size_list_to_set_le (l : list hkey) : size (list_to_set l : gset hkey) <= length l.
Proof.
  induction l as [|x r IH]; simpl; [done|].
  rewrite size_union_alt, size_singleton.
  assert (list_to_set r ∖ {[x]} ⊆ (list_to_set r : gset hkey)) as Hs by set_solver.
  apply subseteq_size in Hs. lia.
Qed.

(** [fuel_bound] is enough for the conversion to return, on every schema,
    for every document and from every state of the visited set. *)
Theorem convert_total {RT : PyRuntime} (full_spec s : json) (V : visited) :
  exists j V', convert full_spec (fuel_bound full_spec s) s V = Some (j, V').
Proof.
  set (strs := all_strs full_spec ++ all_strs s).
  set (U := list_to_set (map HStr strs) : gset hkey).
  assert (forall x, In x strs -> HStr x ∈ U) as HU.
  { intros x Hx. apply elem_of_list_to_set, list_elem_of_In. by apply in_map. }
  apply (convert_total_on full_spec U) with (k := length strs) (sz := json_size s).
  - intros x Hx. apply HU. apply in_or_app. by left.
  - unfold fuel_bound. fold strs. lia.
  - intros x Hx. apply HU. apply in_or_app. by right.
  - done.
  - unfold budget.
    assert (U ∖ V ⊆ U) as Hs by set_solver. apply subseteq_size in Hs.
    pose proof (size_list_to_set_le (map HStr strs)) as Hl.
    rewrite length_map in Hl. fold U in Hl. lia.
Qed.

(** ** Cyclic references *)

Section Cyclic.
Context {RT : PyRuntime}.
Variable full_spec : json.

Lemma marked_cyclic_marker p : marked (JDict (cyclic_marker p)).
Proof. apply marked_here. reflexivity. Qed.

Lemma marked_same_items (d d' : dict) :
  (forall k, dget k d' = dget k d) -> marked (JDict d) -> marked (JDict d').
Proof.
  intros Heq Hm. inversion Hm; subst.
  - apply marked_here. by rewrite Heq.
  - eapply marked_below; [|done]. by rewrite Heq.
Qed.

Lemma marked_with_provenance p (d : dict) :
  marked (JDict d) -> marked (JDict (with_provenance p d)).
Proof.
  unfold with_provenance, dhas.
  destruct (dget "description" d) eqn:Hd; [done|].
  intros Hm. inversion Hm; subst.
  - apply marked_here. by rewrite dget_dset_ne.
  - apply (marked_below _ k v); [|done].
    rewrite dget_dset_ne; [done|]. intros <-. congruence.
Qed.

Lemma convert_properties_keeps conv key items : forall acc V pr V',
  key ∉ map fst items ->
  convert_properties conv items acc V = Some (pr, V') -> dget key pr = dget key acc.
Proof.
  induction items as [|[name x] r IH]; simpl; intros acc V pr V' Hnotin H.
  - by inv_ret H.
  - apply bind_Some in H as (c & V1 & _ & H).
    rewrite (IH _ _ _ _ ltac:(set_solver) H).
    apply dget_dset_ne. set_solver.
Qed.

(** The property loop of the object handler converts the schema under
    [key], in some later state of the same converter, and stores the result. *)
Lemma convert_properties_arm conv key s items : forall acc V pr V',
  extends conv ->
  NoDup (map fst items) -> In (key, s) items ->
  convert_properties conv items acc V = Some (pr, V') ->
  exists c Va Va', V ⊆ Va /\ conv s Va = Some (c, Va') /\ dget key pr = Some (JDict c).
Proof.
  intros acc V pr V' Hext. revert acc V.
  induction items as [|[name x] r IH]; simpl; intros acc V Hnd Hin H; [done|].
  apply NoDup_cons in Hnd as [Hnotin Hnd].
  apply bind_Some in H as (c & V1 & Hc & H).
  destruct Hin as [[= -> ->]|Hin].
  - exists c, V, V1. split; [done|]. split; [done|].
    rewrite (convert_properties_keeps conv key r _ _ _ _ Hnotin H).
    apply dget_dset_eq.
  - destruct (IH _ _ Hnd Hin H) as (c' & Va & Va' & Hsub & Hconv & Hget).
    exists c', Va, Va'. split; [|done].
    apply Hext in Hc. set_solver.
Qed.

Lemma In_dget_ditems key s (d : dict) : dget key d = Some s -> In (key, s) (ditems d).
Proof.
  induction d as [|[k v] r IH]; simpl; [done|].
  destruct (String.eqb k key) eqn:E.
  - apply String.eqb_eq in E. subst k. intros [= ->]. by left.
  - intros H. right. apply IH in H. unfold dpop. apply filter_In. split; [done|].
    simpl. apply negb_true_iff. apply String.eqb_neq in E.
    apply String.eqb_neq. congruence.
Qed.

(** The object handler on a schema with a property [key]: the output has the
    converted property. *)
Lemma object_handle_arm conv o key s props j V j' V' :
  extends conv ->
  dget "properties" o = Some (JDict props) -> dget key props = Some s ->
  object_handle conv o j V = Some (Returned j', V') ->
  exists c Va Va' pr,
    V ⊆ Va /\ conv s Va = Some (c, Va')
    /\ dget "properties" j' = Some (JDict pr) /\ dget key pr = Some (JDict c).
Proof.
  intros Hext Hp Hk H. unfold object_handle in H. rewrite Hp in H.
  apply bind_Some in H as (j1 & V1 & H1 & H).
  apply bind_Some in H1 as (pr & V2 & Hpr & H1).
  apply ret_Some in H1 as [-> ->].
  destruct (convert_properties_arm conv key s (ditems props) [] V pr V2)
    as (c & Va & Va' & Hsub & Hc & Hget);
    [done | apply ditems_NoDup | by apply In_dget_ditems | done |].
  exists c, Va, Va', pr. split; [done|]. split; [done|]. split; [|done].
  assert (dget "properties" j' = dget "properties"
            (dset "properties" (JDict pr)
               (dset "required" (dget_default "required" (JList []) o)
                  (dset "properties" (JDict []) (default_type (JStr "object") j)))))
    as ->; [|apply dget_dset_eq].
  repeat case_match;
    try (inv_ret H; first [done | by rewrite dget_dset_ne by done]).
  inv_bind H. inv_ret H. by rewrite dget_dset_ne by done.
Qed.

(** One turn of the handler loop, seen from its result *)
Lemma run_handlers_step h rest o st V st' V' :
  run_handlers (h :: rest) o st V = Some (st', V') ->
  exists st1 V1,
    run_handlers rest o st1 V1 = Some (st', V')
    /\ ((can_handle h o = false /\ st1 = st /\ V1 = V)
        \/ (can_handle h o = true /\
            exists r, handle h o (fst st) V = Some (r, V1)
              /\ st1 = match r with
                       | Returned j => (j, snd st || Py.truthy (Py.get cyclic_flag j))
                       | Raised => st
                       end)).
Proof.
  rewrite run_handlers_cons. destruct (can_handle h o); [|by eauto 10].
  intros H. apply bind_Some in H as (r & V1 & Hr & H).
  destruct r; eauto 10.
Qed.

Lemma object_handle_returns conv o j V r V' :
  object_handle conv o j V = Some (r, V') -> exists j', r = Returned j'.
Proof.
  unfold object_handle. intros H. inv_bind H. clear Hm.
  destruct (Py.get "additionalProperties" o); try (inv_ret H; by eexists).
  inv_bind H. inv_ret H. by eexists.
Qed.

(** Converting an object schema converts each of its properties, on the same
    converter, and the result has the converted property. *)
Lemma convert_object_arm n o key s props V out V' :
  dget "properties" o = Some (JDict props) -> dget key props = Some s ->
  convert full_spec (S n) (JDict o) V = Some (out, V') ->
  exists c Va Va' pr,
    V ⊆ Va /\ convert full_spec n s Va = Some (c, Va')
    /\ dget "properties" out = Some (JDict pr) /\ dget key pr = Some (JDict c).
Proof.
  intros Hp Hk H. rewrite convert_S in H.
  apply bind_Some in H as (st & V4 & Hrun & Hret).
  apply ret_Some in Hret as [-> ->].
  pose proof (convert_extends full_spec n) as Hext.
  unfold handlers in Hrun.
  apply run_handlers_step in Hrun as (st1 & V1 & Hrun & Hstep1).
  assert (V ⊆ V1) as Hsub1.
  { destruct Hstep1 as [(_ & _ & ->)|(_ & r & Hr & _)]; [done|].
    by apply reference_handle_extends in Hr. }
  apply run_handlers_step in Hrun as (st2 & V2 & Hrun & Hstep2).
  assert (V1 ⊆ V2) as Hsub2.
  { destruct Hstep2 as [(_ & _ & ->)|(_ & r & Hr & _)]; [done|].
    by apply composition_handle_extends in Hr. }
  apply run_handlers_step in Hrun as (st3 & V3 & Hrun & Hstep3).
  destruct Hstep3 as [(Hcan & _)|(_ & r & Hr & ->)].
  { simpl in Hcan. unfold dhas in Hcan. rewrite Hp in Hcan.
    by rewrite orb_true_r in Hcan. }
  simpl in Hr.
  destruct (object_handle_returns _ _ _ _ _ _ Hr) as [j' ->].
  destruct (object_handle_arm _ o key s props _ _ _ _ Hext Hp Hk Hr)
    as (c & Va & Va' & pr & Hsub & Hc & Hpr & Hget).
  exists c, Va, Va', pr. split; [set_solver|]. split; [done|]. split; [|done].
  rewrite finish_frame by done.
  revert Hrun.
  apply (run_handlers_invariant
           (fun st _ => dget "properties" (fst st) = Some (JDict pr))); [|done].
  intros h st0 V5 r0 V6 Hin _ Hst Hh.
  destruct r0 as [j0|]; [|done]. simpl. rewrite <- Hst.
  destruct Hin as [<-|[<-|[<-|[<-|[]]]]]; simpl in Hh.
  - apply (array_handle_frame _ _ _ _ _ _ "properties") in Hh; [done|set_solver].
  - inv_ret Hh. apply string_handle_frame. set_solver.
  - inv_ret Hh. apply number_handle_frame. set_solver.
  - inv_ret Hh. apply common_handle_frame. set_solver.
Qed.

Lemma marked_properties (out pr : dict) key (c : dict) :
  dget "properties" out = Some (JDict pr) -> dget key pr = Some (JDict c) ->
  marked (JDict c) -> marked (JDict out).
Proof. intros Hp Hk Hc. eauto using marked_below. Qed.

(** A plain reference to [p] is marked, if its target is once [p] is visited. *)
Lemma plain_ref_marked p target V :
  resolves_to full_spec p target -> plain_description target ->
  (forall n out V', convert full_spec n (JDict target) (V ∪ {[HStr p]}) = Some (out, V') ->
                    marked (JDict out)) ->
  forall n c V', convert full_spec n (plain_ref p) V = Some (c, V') -> marked (JDict c).
Proof.
  intros Hres (desc & Hdesc & Hun) Htarget n c V' H.
  destruct n as [|n]; [done|].
  destruct (decide (HStr p ∈ V)) as [Hin|Hnotin].
  - rewrite convert_plain_ref_visited in H by done. simplify_eq.
    apply marked_cyclic_marker.
  - pose proof (convert_plain_ref_fresh full_spec p target desc n V
                  Hres Hnotin Hdesc Hun) as Hfresh.
    destruct (convert full_spec n (JDict target) (V ∪ {[HStr p]}))
      as [[result V'']|] eqn:Hconv; [|congruence].
    destruct Hfresh as (out & Hout & Hk). rewrite Hout in H. simplify_eq.
    apply (marked_same_items (with_provenance p result)); [done|].
    apply marked_with_provenance. eauto.
Qed.

Section Pair.
Variables (pA pB : string) (A B : dict) (kA kB : string).
Hypothesis pair : cyclic_pair full_spec pA pB A B kA kB.

Lemma convert_A_visited n V out V' :
  HStr pB ∈ V -> convert full_spec n (JDict A) V = Some (out, V') -> marked (JDict out).
Proof.
  destruct pair as (_ & _ & (props & Hp & Hk) & _).
  intros Hin H. destruct n as [|n]; [done|].
  destruct (convert_object_arm n A kA _ props V out V' Hp Hk H)
    as (c & Va & Va' & pr & Hsub & Hc & Hpr & Hget).
  apply (marked_properties out pr kA c Hpr Hget).
  destruct n as [|n]; [done|].
  rewrite (convert_plain_ref_visited _ n pB Va (Hsub _ Hin)) in Hc. simplify_eq.
  apply marked_cyclic_marker.
Qed.

Lemma convert_B_after n V out V' :
  HStr pB ∈ V -> convert full_spec n (JDict B) V = Some (out, V') -> marked (JDict out).
Proof.
  destruct pair as (HA & _ & _ & (props & Hp & Hk) & HdA & _).
  intros Hin H. destruct n as [|n]; [done|].
  destruct (convert_object_arm n B kB _ props V out V' Hp Hk H)
    as (c & Va & Va' & pr & Hsub & Hc & Hpr & Hget).
  apply (marked_properties out pr kB c Hpr Hget).
  apply (plain_ref_marked pA A Va HA HdA) with (n := n) (V' := Va'); [|done].
  intros n' out' V'' H'.
  apply (convert_A_visited n' (Va ∪ {[HStr pA]}) out' V''); [|done].
  apply elem_of_union_l, Hsub, Hin.
Qed.

Lemma convert_A_marked n V out V' :
  convert full_spec n (JDict A) V = Some (out, V') -> marked (JDict out).
Proof.
  destruct pair as (_ & HB & (props & Hp & Hk) & _ & _ & HdB).
  intros H. destruct n as [|n]; [done|].
  destruct (convert_object_arm n A kA _ props V out V' Hp Hk H)
    as (c & Va & Va' & pr & Hsub & Hc & Hpr & Hget).
  apply (marked_properties out pr kA c Hpr Hget).
  apply (plain_ref_marked pB B Va HB HdB) with (n := n) (V' := Va'); [|done].
  intros n' out' V'' H'.
  apply (convert_B_after n' (Va ∪ {[HStr pB]}) out' V''); [|done].
  apply elem_of_union_r, elem_of_singleton. reflexivity.
Qed.

Lemma convert_ref_A_marked n V c V' :
  convert full_spec n (plain_ref pA) V = Some (c, V') -> marked (JDict c).
Proof.
  destruct pair as (HA & _ & _ & _ & HdA & _).
  apply (plain_ref_marked pA A V HA HdA).
  intros n' out' V'' H'.
  by apply (convert_A_marked n' (V ∪ {[HStr pA]}) out' V'').
Qed.

End Pair.
End Cyclic.

(** C3: for two object schemas [A] and [B] of a document that refer to each
    other through a property, converting [A], or a reference to [A], on one
    converter returns, from any state of its visited set, and the result has
    the cyclic marker somewhere; a reference that was visited is replaced by
    the placeholder by a call that makes no further call. *)
Theorem cyclic_pair_conversion {RT : PyRuntime} (full_spec : json)
    (pA pB : string) (A B : dict) (kA kB : string) (V : visited) :
  cyclic_pair full_spec pA pB A B kA kB ->
  (exists out V',
     convert full_spec (fuel_bound full_spec (JDict A)) (JDict A) V = Some (out, V')
     /\ marked (JDict out))
  /\ (exists out V',
        convert full_spec (fuel_bound full_spec (plain_ref pA)) (plain_ref pA) V
        = Some (out, V')
        /\ marked (JDict out))
  /\ (forall p V0,
        HStr p ∈ V0 -> convert full_spec 1 (plain_ref p) V0 = Some (cyclic_marker p, V0)).
Proof.
  intros Hpair. repeat split.
  - destruct (convert_total full_spec (JDict A) V) as (out & V' & H).
    exists out, V'. split; [done|].
    eapply convert_A_marked; eauto.
  - destruct (convert_total full_spec (plain_ref pA) V) as (out & V' & H).
    exists out, V'. split; [done|].
    eapply convert_ref_A_marked; eauto.
  - intros p V0. apply convert_plain_ref_visited.
Qed.

Lemma cyclic_pair_conversion_witness :
  exists out V',
    convert (RT := StdRuntime.runtime) cyclic_spec
      (fuel_bound cyclic_spec (plain_ref "#/components/schemas/CyclicA"))
      (plain_ref "#/components/schemas/CyclicA") ∅ = Some (out, V')
    /\ marked (JDict out).
Proof.
  apply (cyclic_pair_conversion (RT := StdRuntime.runtime) cyclic_spec
           "#/components/schemas/CyclicA" "#/components/schemas/CyclicB"
           [("type", JStr "object");
            ("properties", JDict [("b", plain_ref "#/components/schemas/CyclicB")])]
           [("type", JStr "object");
            ("properties", JDict [("a", plain_ref "#/components/schemas/CyclicA")])]
           "b" "a" ∅).
  split; [split; reflexivity|]. split; [split; reflexivity|].
  split; [eexists; split; reflexivity|]. split; [eexists; split; reflexivity|].
  split; eexists; split; reflexivity.
Defined.

Lemma dget_Some_In k (d : dict) v : dget k d = Some v -> In (k, v) d.
Proof.
  induction d as [|[k' v'] r IH]; [done|]. cbn [dget In].
  destruct (String.eqb k' k) eqn:E; [|auto].
  apply String.eqb_eq in E as ->. intros [= ->]. by left.
Qed.

Lemma marked_has_marker (v : json) : marked v -> has_marker v = true.
Proof.
  induction 1 as [d Hd|d k v Hk _ IH]; cbn [has_marker]; apply orb_true_iff.
  - left. apply existsb_exists. exists (cyclic_flag, JBool true).
    split; [by apply dget_Some_In|]. by rewrite String.eqb_refl.
  - right. apply existsb_exists. exists (k, v). split; [by apply dget_Some_In|done].
Qed.

(** C3, as stated, fails for a pair whose reference has a [type: object]
    beside it: the object handler runs after the reference handler and
    empties the [properties] that were merged from the target, and with them
    goes the only placeholder of the tree. *)
Lemma cyclic_pair_marker_wiped :
  let pA := "#/components/schemas/A" in
  let pB := "#/components/schemas/B" in
  let refB := JDict [("$ref", JStr pB); ("type", JStr "object")] in
  let A := [("type", JStr "object"); ("properties", JDict [("b", refB)])] in
  let B := [("type", JStr "object"); ("properties", JDict [("a", plain_ref pA)])] in
  let wiped := JDict [("type", JStr "object"); ("properties", JDict []);
                      ("required", JList []);
                      ("description", JStr ("(from ref: " +:+ pB +:+ ")"))] in
  resolves_to (RT := StdRuntime.runtime) typed_ref_spec pA A
  /\ resolves_to (RT := StdRuntime.runtime) typed_ref_spec pB B
  /\ exists out V',
       convert (RT := StdRuntime.runtime) typed_ref_spec
         (fuel_bound typed_ref_spec (JDict A)) (JDict A) ∅ = Some (out, V')
       /\ out = [("type", JStr "object"); ("properties", JDict [("b", wiped)]);
                 ("required", JList [])]
       /\ ~ marked (JDict out).
Proof.
  intros pA pB refB A B wiped. split; [split; reflexivity|]. split; [split; reflexivity|].
  assert (exists V', convert (RT := StdRuntime.runtime) typed_ref_spec
                       (fuel_bound typed_ref_spec (JDict A)) (JDict A) ∅
                     = Some ([("type", JStr "object");
                              ("properties", JDict [("b", wiped)]);
                              ("required", JList [])], V') /\ True) as (V' & H & _).
  { apply fmap_fst_Some. split; [vm_compute; reflexivity|done]. }
  eexists _, V'. split; [exact H|]. split; [reflexivity|].
  intros Hm%marked_has_marker. vm_compute in Hm. discriminate.
Qed.

(** [test_schema_conversion_cycle_detection]: the whole result on the
    repository's cyclic pair *)
Example cycle_detection_test :
  openapi_schema_to_json_schema (RT := StdRuntime.runtime)
    (plain_ref "#/components/schemas/CyclicA") cyclic_spec
  = [("type", JStr "object");
     ("properties",
      JDict [("b",
        JDict [("type", JStr "object");
               ("properties",
                JDict [("a", JDict (cyclic_marker "#/components/schemas/CyclicA"))]);
               ("required", JList []);
               ("description", JStr "(from ref: #/components/schemas/CyclicB)")])]);
     ("required", JList []);
     ("description", JStr "(from ref: #/components/schemas/CyclicA)")].
Proof. vm_compute. reflexivity. Qed.

(** ** The mapping call *)

Section MapTools.
Context {RT : PyRuntime}.

Lemma fold_left_app_flat_map {A B} (f : A -> list B) (g : list B -> A -> list B) l :
  (forall acc x, g acc x = acc ++ f x) ->
  forall acc, fold_left g l acc = acc ++ flat_map f l.
Proof.
  intros Hg. induction l as [|x r IH]; simpl; intros acc; [by rewrite app_nil_r|].
  by rewrite IH, Hg, <- app_assoc.
Qed.

Lemma map_method_tools spec path acc entry :
  map_method spec path acc entry = acc ++ tools_of_method spec path entry.
Proof.
  unfold map_method, tools_of_method. destruct entry as [method operation].
  cbn [fst snd].
  destruct operation; rewrite ?app_nil_r; try done.
  destruct (existsb (String.eqb (PyStr.lower method)) http_methods);
    [|by rewrite app_nil_r].
  destruct (map_operation_to_tool _ _ _ _); [done|by rewrite app_nil_r].
Qed.

Lemma map_path_tools spec acc entry :
  map_path spec acc entry = acc ++ tools_of_path spec entry.
Proof.
  unfold map_path, tools_of_path. destruct entry as [path path_item].
  cbn [fst snd].
  destruct path_item; rewrite ?app_nil_r; try done.
  apply fold_left_app_flat_map. intros. apply map_method_tools.
Qed.

(** What a call of [map_tools] returns and how it leaves the instance *)
Lemma map_tools_eq (self : Mapper) :
  map_tools self =
  match dget_default "paths" (JDict []) (mapper_spec self) with
  | JDict paths =>
      let tools := flat_map (tools_of_path (mapper_spec self)) (ditems paths) in
      (Ok tools, MkMapper (mapper_spec self) tools (schema_converter_visited self))
  | _ => (Raise, MkMapper (mapper_spec self) [] (schema_converter_visited self))
  end.
Proof.
  unfold map_tools. simpl.
  destruct (dget_default "paths" (JDict []) (mapper_spec self)); try done.
  rewrite (fold_left_app_flat_map (tools_of_path (mapper_spec self)));
    [done | intros; apply map_path_tools].
Qed.

End MapTools.

(** C5: [map_tools] raises exactly when [paths] is present and is not a map;
    otherwise it returns the tools of the path items that are maps, of their
    entries whose key is an HTTP verb and whose value is a map, leaving out
    the operations whose mapping raised. *)
Theorem map_tools_outcome {RT : PyRuntime} (self : Mapper) :
  (fst (map_tools self) = Raise <->
   exists v, dget "paths" (mapper_spec self) = Some v /\ Py.is_dict v = false)
  /\ (forall paths,
        dget_default "paths" (JDict []) (mapper_spec self) = JDict paths ->
        fst (map_tools self)
        = Ok (flat_map (tools_of_path (mapper_spec self)) (ditems paths)))
  /\ (fst (map_tools self) <> Raise ->
      exists tools, fst (map_tools self) = Ok tools).
Proof.
  rewrite map_tools_eq. unfold dget_default.
  destruct (dget "paths" (mapper_spec self)) as [v|] eqn:Hv.
  - destruct v; simpl; (split; [split; [try done; eauto|]|split]);
      try (intros (v & [= <-] & Hd); done); try done; eauto.
    + intros paths [= <-]. done.
  - simpl. split; [split; [done|]|split]; eauto.
    + by intros (v & ? & _).
    + by intros paths [= <-].
Qed.

(** C10 does not hold of the code.  On [shared_type_spec] the first call
    of [map_tools] returns, for the parameter of [/a], the placeholder of an
    unresolved reference: the type list of [T] has one entry, and the
    reference asks for the second.  Converting [T] for [/b] appends ["null"]
    to that list where it is, in the document.  The second call on the same
    instance finds the entry and returns another placeholder, so the two
    lists differ; the document of the instance is not what it was. *)
Theorem map_tools_not_repeatable (n : nat) :
  let T := [Shared.Key "components"; Shared.Key "schemas"; Shared.Key "T"] in
  let tool_a note :=
    Tool (JStr "get_a") (JStr "GET operation for /a")
         (InputSchema
            [(JStr "x",
              [("description", JStr (note +:+ "#/components/schemas/T/type/1"))])] [])
         "GET" "/a" [ProcessedParam (JStr "x") (JStr "query") (JBool false)] None in
  let tool_b :=
    Tool (JStr "get_b") (JStr "GET operation for /b")
         (InputSchema
            [(JStr "y",
              [("type", JList [JStr "string"; JStr "null"]);
               ("description", JStr "(from ref: #/components/schemas/T)")])] [])
         "GET" "/b" [ProcessedParam (JStr "y") (JStr "query") (JBool false)] None in
  exists first second spec',
    map_tools_twice (RT := StdRuntime.runtime) (2 + n) (Shared.MkMapper shared_type_spec [])
    = Some (Ok first, Ok second, spec')
    /\ first = [tool_a "Unresolved reference: "; tool_b]
    /\ second = [tool_a "Resolved reference is not an object: "; tool_b]
    /\ first <> second
    /\ Shared.at_path (T ++ [Shared.Key "type"]) shared_type_spec
       = Some (JList [JStr "string"])
    /\ Shared.at_path (T ++ [Shared.Key "type"]) spec'
       = Some (JList [JStr "string"; JStr "null"])
    /\ spec' <> shared_type_spec.
Proof.
  intros T tool_a tool_b.
  eexists _, _, _. split; [vm_compute; reflexivity|].
  split; [reflexivity|]. split; [reflexivity|]. split; [discriminate|].
  split; [reflexivity|]. split; [reflexivity|]. discriminate.
Qed.

(** On the documents of the mapper's tests no list is appended to, and the
    shared document gives what the by-value reading gives. *)
Example shared_skips_invalid_operations_test :
  map_tools_twice (RT := StdRuntime.runtime) 1 (Shared.MkMapper (JDict invalid_spec) [])
  = let tools := fst (map_tools (RT := StdRuntime.runtime) (MkMapper invalid_spec [] ∅)) in
    Some (tools, tools, JDict invalid_spec).
Proof. vm_compute. reflexivity. Qed.

(** [test_mapper_skips_invalid_operations] and
    [test_mapper_handles_invalid_paths_object] *)
Example skips_invalid_operations_test :
  fst (map_tools (RT := StdRuntime.runtime) (MkMapper invalid_spec [] ∅))
  = Ok [Tool (JStr "get_good") (JStr "Good one") (InputSchema [] [])
             "GET" "/good" [] None;
        Tool (JStr "get_bad4") (JStr "GET operation for /bad4") (InputSchema [] [])
             "GET" "/bad4" [] None].
Proof. vm_compute. reflexivity. Qed.

Example invalid_paths_test :
  fst (map_tools (RT := StdRuntime.runtime) (MkMapper invalid_paths_spec [] ∅)) = Raise.
Proof. reflexivity. Qed.

(** ** The result does not depend on the budget *)

Section Refines.
Context {RT : PyRuntime}.
Variable full_spec : json.
Variables conv conv' : json -> M dict.
Hypothesis conv_refines : refines conv conv'.

Lemma bind_refines {A B} (m m' : M A) (f f' : A -> M B) V r :
  (forall r, m V = Some r -> m' V = Some r) ->
  (forall a V r, f a V = Some r -> f' a V = Some r) ->
  bind m f V = Some r -> bind m' f' V = Some r.
Proof.
  intros Hm Hf. unfold bind. destruct (m V) as [[a V1]|] eqn:E; [|done].
  rewrite (Hm _ eq_refl). apply Hf.
Qed.

Lemma mapM_refines l V r : mapM conv l V = Some r -> mapM conv' l V = Some r.
Proof.
  revert V r. induction l as [|x l IH]; simpl; intros V r; [done|].
  apply bind_refines; [apply conv_refines|]. intros a V1 r1.
  apply bind_refines; [apply IH|done].
Qed.

Lemma reference_handle_refines o j V r :
  reference_handle full_spec conv o j V = Some r ->
  reference_handle full_spec conv' o j V = Some r.
Proof.
  unfold reference_handle.
  destruct (dget "$ref" o) as [ref_path|]; [|done].
  destruct (Hash.hash_key ref_path) as [hk|]; [|done].
  destruct (decide (hk ∈ V)); [done|].
  destruct ref_path; try done.
  destruct (get_description _); [|done].
  destruct (is_unresolved_desc _); [done|].
  destruct (conv _ _) as [[result V1]|] eqn:E; [|done].
  by rewrite (conv_refines _ _ _ E).
Qed.

Lemma composition_list_refines key o j V r :
  composition_list conv key o j V = Some r -> composition_list conv' key o j V = Some r.
Proof.
  unfold composition_list.
  destruct (Py.get key o); try done.
  destruct (dicts_of l); [done|].
  apply bind_refines; [|done]. intros r'. apply mapM_refines.
Qed.

Lemma composition_not_refines o j V r :
  composition_not conv o j V = Some r -> composition_not conv' o j V = Some r.
Proof.
  unfold composition_not.
  destruct (Py.get "not" o); try done.
  apply bind_refines; [|done]. intros r'. apply conv_refines.
Qed.

Lemma composition_handle_refines o j V r :
  composition_handle conv o j V = Some r -> composition_handle conv' o j V = Some r.
Proof.
  unfold composition_handle.
  apply bind_refines; [intros r'; apply composition_list_refines|]. intros j1 V1 r1.
  apply bind_refines; [intros r'; apply composition_list_refines|]. intros j2 V2 r2.
  apply bind_refines; [intros r'; apply composition_list_refines|]. intros j3 V3 r3.
  apply bind_refines; [intros r'; apply composition_not_refines|done].
Qed.

Lemma convert_properties_refines items acc V r :
  convert_properties conv items acc V = Some r ->
  convert_properties conv' items acc V = Some r.
Proof.
  revert acc V r. induction items as [|[name x] l IH]; simpl; intros acc V r; [done|].
  apply bind_refines; [apply conv_refines|]. intros a V1 r1. apply IH.
Qed.

Lemma object_handle_refines o j V r :
  object_handle conv o j V = Some r -> object_handle conv' o j V = Some r.
Proof.
  unfold object_handle. apply bind_refines.
  - intros r'. destruct (dget "properties" o) as [[]|]; try done.
    apply bind_refines; [|done]. intros r''. apply convert_properties_refines.
  - intros j1 V1 r1. destruct (Py.get "additionalProperties" o); try done.
    apply bind_refines; [|done]. intros r'. apply conv_refines.
Qed.

Lemma array_handle_refines o j V r :
  array_handle conv o j V = Some r -> array_handle conv' o j V = Some r.
Proof.
  unfold array_handle. apply bind_refines; [|done]. intros r'. apply conv_refines.
Qed.

Lemma run_handlers_refines hs hs' o :
  Forall2 (fun h h' =>
             can_handle h o = can_handle h' o
             /\ forall j V r, handle h o j V = Some r -> handle h' o j V = Some r) hs hs' ->
  forall st V r, run_handlers hs o st V = Some r -> run_handlers hs' o st V = Some r.
Proof.
  induction 1 as [|h h' hs hs' [Hcan Hh] _ IH]; intros st V r; [done|].
  rewrite !run_handlers_cons, <- Hcan.
  destruct (can_handle h o); [|apply IH].
  apply bind_refines; [intros r'; apply Hh|].
  intros [j1|] V1 r1; apply IH.
Qed.

Lemma handlers_refine o :
  Forall2 (fun h h' =>
             can_handle h o = can_handle h' o
             /\ forall j V r, handle h o j V = Some r -> handle h' o j V = Some r)
    (handlers full_spec conv) (handlers full_spec conv').
Proof.
  unfold handlers. repeat constructor; simpl; try done.
  - apply reference_handle_refines.
  - apply composition_handle_refines.
  - apply object_handle_refines.
  - apply array_handle_refines.
Qed.

End Refines.

Section FuelIndependence.
Context {RT : PyRuntime}.
Variable full_spec : json.

Lemma convert_fuel_S n : refines (convert full_spec n) (convert full_spec (S n)).
Proof.
  induction n as [|n IH]; intros s V r H; [by simpl in H|].
  rewrite convert_S in *. destruct s; try done.
  revert H. apply bind_refines; [|done]. intros r'.
  apply run_handlers_refines, handlers_refine, IH.
Qed.

(** A larger budget gives the same result. *)
Lemma convert_fuel_mono n m :
  n <= m -> refines (convert full_spec n) (convert full_spec m).
Proof.
  induction 1 as [|m _ IH]; [by intros s V r H|].
  intros s V r H. by apply convert_fuel_S, IH.
Qed.

(** Two budgets under which the conversion returns give the same result. *)
Lemma convert_deterministic n m s V r r' :
  convert full_spec n s V = Some r -> convert full_spec m s V = Some r' -> r = r'.
Proof.
  intros H H'.
  apply (convert_fuel_mono n (n + m)) in H; [|lia].
  apply (convert_fuel_mono m (n + m)) in H'; [|lia].
  congruence.
Qed.

(** [openapi_schema_to_json_schema] returns the result of the conversion from
    the empty visited set, whatever budget it is computed with. *)
Lemma openapi_schema_to_json_schema_result n s j V' :
  convert full_spec n s ∅ = Some (j, V') ->
  openapi_schema_to_json_schema s full_spec = j.
Proof.
  intros H. unfold openapi_schema_to_json_schema.
  destruct (convert_total full_spec s ∅) as (j' & V'' & H').
  rewrite H'. pose proof (convert_deterministic _ _ _ _ _ _ H H'). congruence.
Qed.

End FuelIndependence.
